(** * nbsapi_verify: the command-line gate in front of the test runner

    A shallow embedding of [src/nbsapi_verify/cli.py]: the configuration
    locator, the configuration generator, the test-type validator and the
    hand-over to the execution engine, followed by the properties the
    specification states about them.

    The file system, the two output streams and the calls made to the
    execution engine are explicit state.  [sys.exit] and uncaught Python
    exceptions are two distinct abnormal results of a computation.  PyYAML,
    pytest and the result formatter are collaborators of the tool and are
    taken as an interface ([External]). *)

From Stdlib Require Import ZArith Ascii String.
From stdpp Require Import gmap strings list fin_maps.

#[local] Set Warnings "-register-all".
#[local] Open Scope Z_scope.

(** ** Python values *)

(** What [yaml.safe_load] can hand back, as far as the tool looks at it.
    A dict is keyed by strings: the tool only ever looks up string keys, and
    a key of another type never equals one. *)
Inductive pyval :=
| PNone
| PBool (b : bool)
| PInt (n : Z)
| PStr (s : string)
| PList (l : list pyval)
| PDict (d : gmap string pyval).

(** The exceptions that can escape [cli]; none of them is caught there. *)
Inductive exn :=
| AttributeError
| TypeError
| IsADirectoryError
| FileExistsError
| FileNotFoundError
| YAMLError.

(** [class TestType(str, Enum)], and the value click passes for
    [--test-type]. *)
Inductive TestType := ALL | AUTH | PUBLIC.

Definition TestType_str (t : TestType) : string :=
  match t with
  | ALL => "all"
  | AUTH => "auth"
  | PUBLIC => "public"
  end.

(** ** Strings *)

Definition nl : string := String (ascii_of_nat 10) EmptyString.

(** Python's [sub in s] on two strings. *)
Fixpoint contains (sub s : string) : bool :=
  String.prefix sub s ||
  match s with
  | EmptyString => false
  | String _ s' => contains sub s'
  end.

Fixpoint ends_with (suf s : string) : bool :=
  String.eqb suf s ||
  match s with
  | EmptyString => false
  | String _ s' => ends_with suf s'
  end.

Fixpoint strip_prefix (pre s : string) : option string :=
  match pre, s with
  | EmptyString, _ => Some s
  | String a pre', String b s' =>
      if Ascii.eqb a b then strip_prefix pre' s' else None
  | String _ _, EmptyString => None
  end.

(** [sep.join(l)] *)
Fixpoint join (sep : string) (l : list string) : string :=
  match l with
  | [] => EmptyString
  | [x] => x
  | x :: rest => x +:+ sep +:+ join sep rest
  end.

(** Truthiness of an [Optional[str]]: [None] and the empty string are
    falsy. *)
Definition truthy (o : option string) : bool :=
  match o with
  | Some (String _ _) => true
  | _ => false
  end.

(** [Path(d) / name], on paths kept as their strings: one string names one
    file, and what pathlib does to a directory string (a trailing or
    doubled slash, a [.] component, a relative path under the current
    directory) is not part of the model. *)
Definition joinpath (d name : string) : string := d +:+ "/" +:+ name.

(** ** The world the tool runs in *)

Inductive node :=
| Dir
| File (text : string).

#[global] Instance node_eq_dec : EqDecision node.
Proof. solve_decision. Defined.

(** A file holds the text that [f.read()] returns in text mode. *)
Record state := mkState {
  fs : gmap string node;
  stdout : list string;
  stderr : list string;
  engine_calls : list (list string)
}.

(** [Path.cwd()], [click.get_app_dir("nbsinfra_verify")] and
    [Path(__file__).parent]. *)
Record env := mkEnv {
  cwd : string;
  app_dir : string;
  package_dir : string
}.

(** The collaborators: PyYAML, pytest, and [format_results] with its
    [ResultCapture] from the package's [formatting] module. *)
Class External := {
  capture : Type;
  yaml_dump : pyval -> string;
  yaml_safe_load : string -> exn + pyval;
  pytest_main : list string -> gmap string node -> Z * capture;
  format_results : capture -> string
}.

(** ** Computations: state, [sys.exit] and exceptions

    [Exit code] is a [sys.exit(code)].  [Raise x] is an exception on its
    way out of [cli]: nothing in the tool catches one, so the interpreter
    ends the process with its traceback. *)

Inductive result (A : Type) :=
| Val (a : A)
| Exit (code : Z)
| Raise (x : exn).
Arguments Val {A} a.
Arguments Exit {A} code.
Arguments Raise {A} x.

Definition M (A : Type) : Type := state -> result A * state.

Definition ret {A} (a : A) : M A := fun st => (Val a, st).

Definition bind {A B} (m : M A) (k : A -> M B) : M B := fun st =>
  match m st with
  | (Val a, st') => k a st'
  | (Exit c, st') => (Exit c, st')
  | (Raise x, st') => (Raise x, st')
  end.

Declare Scope M_scope.
Delimit Scope M_scope with M.
Notation "'let*' x ':=' m 'in' k" := (bind m (fun x => k))
  (at level 10, x name, m at level 100, k at level 200) : M_scope.
#[local] Open Scope M_scope.

(** [sys.exit(code)] *)
Definition exit {A} (code : Z) : M A := fun st => (Exit code, st).

(** A value or an exception computed without touching the state. *)
Definition lift {A} (r : exn + A) : M A := fun st =>
  match r with
  | inl x => (Raise x, st)
  | inr a => (Val a, st)
  end.

(** [click.echo(msg)] and [click.echo(msg, err=True)] *)
Definition echo (msg : string) : M unit := fun st =>
  (Val tt, mkState (fs st) (stdout st ++ [msg]) (stderr st) (engine_calls st)).

Definition echo_err (msg : string) : M unit := fun st =>
  (Val tt, mkState (fs st) (stdout st) (stderr st ++ [msg]) (engine_calls st)).

Definition set_fs (f : gmap string node) (st : state) : state :=
  mkState f (stdout st) (stderr st) (engine_calls st).

(** [path.exists()] *)
Definition path_exists (p : string) : M bool := fun st =>
  (Val (bool_decide (is_Some (fs st !! p))), st).

(** [with open(p) as f: f.read()] *)
Definition read_text (p : string) : M string := fun st =>
  match fs st !! p with
  | Some (File text) => (Val text, st)
  | Some Dir => (Raise IsADirectoryError, st)
  | None => (Raise FileNotFoundError, st)
  end.

(** ** The errors the tool reports itself

    Each is a [click.echo(..., err=True)] followed by [sys.exit(1)]. *)
Inductive failure :=
| MissingHost
| ConfigNotFoundAt (config_path : string)
| ConfigNotFound (locations : list string)
| AuthConfigMissing (t : TestType)
| TestDirNotFound (test_dir : string)
| NoAuthTests (t : TestType)
| NoPublicTests (t : TestType)
| MissingTypes (t : TestType) (missing : list string).

Definition message (f : failure) : string :=
  match f with
  | MissingHost => "Error: --host is required when using --generate"
  | ConfigNotFoundAt p => "Error: Configuration file not found at " +:+ p
  | ConfigNotFound locations =>
      "Error: Configuration file not found in any of these locations:"
      +:+ nl +:+ "  " +:+ join (nl +:+ "  ") locations +:+ nl +:+ nl
      +:+ "Please run with --generate flag first to create configuration."
  | AuthConfigMissing t =>
      "Error: Test type '" +:+ TestType_str t
      +:+ "' requested but auth configuration is missing." +:+ nl
      +:+ "Auth tests require 'username' and 'password' in the configuration."
      +:+ nl
      +:+ "Please regenerate the configuration with --username and --password parameters."
  | TestDirNotFound d => "Error: Test directory not found at " +:+ d
  | NoAuthTests t =>
      "Error: Test type '" +:+ TestType_str t
      +:+ "' requested but no auth test files found." +:+ nl
      +:+ "Make sure auth test files are generated and properly marked."
  | NoPublicTests t =>
      "Error: Test type '" +:+ TestType_str t
      +:+ "' requested but no public test files found." +:+ nl
      +:+ "Make sure public test files are generated and properly marked."
  | MissingTypes t missing =>
      "Error: Test type '" +:+ TestType_str t
      +:+ "' requested but some test types are missing: "
      +:+ join ", " missing +:+ "." +:+ nl
      +:+ "Make sure all test types are generated before running 'all' tests."
  end.

Definition fail {A} (f : failure) : M A :=
  let* _ := echo_err (message f) in exit 1.

(** ** The tool *)

Section Cli.
Context `{External}.

(** [save_yaml]: [open(file_path, "w")] truncates or creates the file. *)
Definition save_yaml (data : pyval) (file_path : string) : M unit := fun st =>
  match fs st !! file_path with
  | Some Dir => (Raise IsADirectoryError, st)
  | _ => (Val tt, set_fs (<[file_path := File (yaml_dump data)]> (fs st)) st)
  end.

Definition get_config_locations (e : env) : list string :=
  [joinpath (cwd e) "common.yaml"; joinpath (app_dir e) "common.yaml"].

(** The loop of [find_config], over any list of candidate paths. *)
Fixpoint first_existing (f : gmap string node) (paths : list string)
  : option string :=
  match paths with
  | [] => None
  | path :: rest =>
      if bool_decide (is_Some (f !! path)) then Some path
      else first_existing f rest
  end.

Definition find_config (e : env) : M (option string) := fun st =>
  (Val (first_existing (fs st) (get_config_locations e)), st).

(** [path.parent.mkdir(parents=True, exist_ok=True)]; the store records
    the directory itself.  The missing ancestors that [parents=True]
    creates as well, and the error of an ancestor that is a file, are not
    part of the model. *)
Definition mkdir_parents (d : string) : M unit := fun st =>
  match fs st !! d with
  | Some (File _) => (Raise FileExistsError, st)
  | Some Dir => (Val tt, st)
  | None => (Val tt, set_fs (<[d := Dir]> (fs st)) st)
  end.

Definition get_config_path (e : env) (config_dir : option string) : M string :=
  match config_dir with
  | Some (String _ _ as d) =>
      let path := joinpath d "common.yaml" in
      let* _ := mkdir_parents d in
      ret path
  | _ => ret (joinpath (cwd e) "common.yaml")
  end.

(** The arguments click passes to [cli]. *)
Record args := mkArgs {
  generate : bool;
  config_dir : option string;
  host : option string;
  testid : Z;
  username : option string;
  password : option string;
  solution : Z;
  test_type : TestType
}.

(** Lines 116-121: the mapping handed to [save_yaml]. *)
Definition build_config (host : string) (testid solution : Z)
    (username password : option string) : pyval :=
  let variables : gmap string pyval := {[ "host" := PStr host ]} in
  let variables := <["user_id" := PInt testid]> variables in
  let variables := <["solution_id" := PInt solution]> variables in
  let variables :=
    match username, password with
    | Some (String _ _ as u), Some (String _ _ as p) =>
        <["password" := PStr p]> (<["username" := PStr u]> variables)
    | _, _ => variables
    end in
  PDict {[ "variables" := PDict variables ]}.

(** The [if generate:] branch. *)
Definition generate_config (e : env) (a : args) : M unit :=
  match host a with
  | Some (String _ _ as h) =>
      let* config_path := get_config_path e (config_dir a) in
      let config :=
        build_config h (testid a) (solution a) (username a) (password a) in
      let* _ := save_yaml config config_path in
      echo ("Generated configuration file at: " +:+ config_path)
  | _ => fail MissingHost
  end.

(** Lines 129-150: where the configuration of a test run is read from. *)
Definition locate (e : env) (config_dir : option string) : M string :=
  match config_dir with
  | Some (String _ _ as d) =>
      let config_path := joinpath d "common.yaml" in
      let* found := path_exists config_path in
      if found then ret config_path else fail (ConfigNotFoundAt config_path)
  | _ =>
      let* config_path := find_config e in
      match config_path with
      | Some p => ret p
      | None => fail (ConfigNotFound (get_config_locations e))
      end
  end.

(** Lines 153-154 *)
Definition load_config (config_path : string) : M pyval :=
  let* text := read_text config_path in
  lift (yaml_safe_load text).

(** [v.get(k, dflt)]: only a dict has the method. *)
Definition py_get (v : pyval) (k : string) (dflt : pyval) : exn + pyval :=
  match v with
  | PDict d => inr (default dflt (d !! k))
  | _ => inl AttributeError
  end.

Definition is_str (k : string) (v : pyval) : bool :=
  match v with
  | PStr s => String.eqb k s
  | _ => false
  end.

(** [k in v] for a string [k]: key membership in a dict, substring of a
    string, element of a list; the other values are no containers. *)
Definition py_in (k : string) (v : pyval) : exn + bool :=
  match v with
  | PDict d => inr (bool_decide (is_Some (d !! k)))
  | PStr s => inr (contains k s)
  | PList l => inr (existsb (is_str k) l)
  | PNone | PBool _ | PInt _ => inl TypeError
  end.

(** Line 157; [and] evaluates its right operand only when the left one is
    true. *)
Definition has_auth_config (config : pyval) : exn + bool :=
  match py_get config "variables" (PDict ∅) with
  | inl x => inl x
  | inr vars =>
      match py_in "username" vars with
      | inl x => inl x
      | inr false => inr false
      | inr true =>
          match py_get config "variables" (PDict ∅) with
          | inl x => inl x
          | inr vars' => py_in "password" vars'
          end
      end
  end.

Definition auth_or_all (t : TestType) : bool :=
  match t with
  | AUTH | ALL => true
  | PUBLIC => false
  end.

(** Lines 157-167: the credential check. *)
Definition check_auth_config (config : pyval) (t : TestType) : M unit :=
  let* has_auth := lift (has_auth_config config) in
  if auth_or_all t && negb has_auth then fail (AuthConfigMissing t)
  else ret tt.

(** Lines 173-175 *)
Definition check_test_dir (test_dir : string) : M unit :=
  let* found := path_exists test_dir in
  if negb found then fail (TestDirNotFound test_dir) else ret tt.

(** A directory entry matched by [*.tavern.yaml]: [*] does not match a
    leading dot. *)
Definition tavern_name (name : string) : bool :=
  ends_with ".tavern.yaml" name
  && negb (String.prefix "." name)
  && negb (contains "/" name).

Definition in_test_dir (test_dir p : string) : bool :=
  match strip_prefix (test_dir +:+ "/") p with
  | Some name => tavern_name name
  | None => false
  end.

(** [glob.glob(str(test_dir / "*.tavern.yaml"))], for a test directory
    whose own path has no wildcard character in it. *)
Definition glob_tests (f : gmap string node) (test_dir : string)
  : list string :=
  match f !! test_dir with
  | Some Dir => List.filter (in_test_dir test_dir) (map fst (map_to_list f))
  | _ => []
  end.

Definition glob (test_dir : string) : M (list string) := fun st =>
  (Val (glob_tests (fs st) test_dir), st).

Definition auth_marker : string := "marks:" +:+ nl +:+ "- auth".
Definition public_marker : string := "marks:" +:+ nl +:+ "- public".

(** Lines 187-193: the loop over the test files, with the two flags. *)
Fixpoint scan_marks (test_files : list string) (flags : bool * bool)
  : M (bool * bool) :=
  match test_files with
  | [] => ret flags
  | test_file :: rest =>
      let* content := read_text test_file in
      let has_auth_tests :=
        if contains auth_marker content then true else fst flags in
      let has_public_tests :=
        if contains public_marker content then true else snd flags in
      scan_marks rest (has_auth_tests, has_public_tests)
  end.

(** Lines 213-217 *)
Definition missing_types (has_auth_tests has_public_tests : bool)
  : list string :=
  (if negb has_auth_tests then ["auth"] else [])
  ++ (if negb has_public_tests then ["public"] else []).

(** Lines 196-223: the three checks of the marks against the test type. *)
Definition check_test_files (t : TestType)
    (has_auth_tests has_public_tests : bool) : M unit :=
  let* _ :=
    match t with
    | AUTH => if negb has_auth_tests then fail (NoAuthTests t) else ret tt
    | _ => ret tt
    end in
  let* _ :=
    match t with
    | PUBLIC => if negb has_public_tests then fail (NoPublicTests t) else ret tt
    | _ => ret tt
    end in
  match t with
  | ALL =>
      if negb (has_auth_tests && has_public_tests)
      then fail (MissingTypes t (missing_types has_auth_tests has_public_tests))
      else ret tt
  | _ => ret tt
  end.

(** Lines 226-237 *)
Definition pytest_args (test_dir config_path : string) (t : TestType)
  : list string :=
  [test_dir; "-q"; "--tb=no"; "--no-header"; "--no-summary";
   "--tavern-global-cfg=" +:+ config_path]
  ++ match t with
     | ALL => []
     | _ => ["-m"; TestType_str t]
     end.

(** [pytest.main(pytest_args, plugins=[capture])]: the call is recorded
    and its return code and capture are handed on.  What the engine prints
    and writes on its own while it runs is not part of the state. *)
Definition run_engine (pytest_args : list string) : M (Z * capture) :=
  fun st =>
    (Val (pytest_main pytest_args (fs st)),
     mkState (fs st) (stdout st) (stderr st)
       (engine_calls st ++ [pytest_args])).

(** Lines 169-223: everything between the credential check and the
    engine. *)
Definition check_tests (test_dir : string) (t : TestType) : M unit :=
  let* _ := check_test_dir test_dir in
  let* test_files := glob test_dir in
  let* flags := scan_marks test_files (false, false) in
  check_test_files t (fst flags) (snd flags).

(** The test-run branch of [cli]. *)
Definition run_tests (e : env) (a : args) : M unit :=
  let* config_path := locate e (config_dir a) in
  let* config := load_config config_path in
  let* _ := check_auth_config config (test_type a) in
  let test_dir := joinpath (package_dir e) "tests" in
  let* _ := check_tests test_dir (test_type a) in
  let* res := run_engine (pytest_args test_dir config_path (test_type a)) in
  let* _ := echo (format_results (snd res)) in
  exit (fst res).

Definition cli (e : env) (a : args) : M unit :=
  if generate a then generate_config e a else run_tests e a.

End Cli.

(** ** Notions the properties are stated with *)

Section Notions.
Context `{External}.

(** The state a [fail f] leaves: one more message on the error stream. *)
Definition failed (f : failure) (st : state) : state :=
  mkState (fs st) (stdout st) (stderr st ++ [message f]) (engine_calls st).

(** A gate hands on a value, reports one of the tool's errors and exits
    with 1, or lets an exception escape; it changes nothing else. *)
Inductive gate_result {A} (st : state) : result A * state -> Prop :=
| gate_val (a : A) : gate_result st (Val a, st)
| gate_failed (f : failure) : gate_result st (Exit 1, failed f st)
| gate_raised (x : exn) : gate_result st (Raise x, st).

Definition gate {A} (m : M A) : Prop := forall st, gate_result st (m st).

(** The hand-over to the engine, once every gate is passed: the call, the
    formatted results on standard output, the engine's code as exit code. *)
Definition ran (pytest_args : list string) (st : state)
  : result unit * state :=
  let res := pytest_main pytest_args (fs st) in
  (Exit (fst res),
   mkState (fs st) (stdout st ++ [format_results (snd res)]) (stderr st)
     (engine_calls st ++ [pytest_args])).

(** [package_dir / "tests"] *)
Definition test_dir_of (e : env) : string := joinpath (package_dir e) "tests".

(** The four ways a run of [cli] ends: a configuration generated, one of
    the tool's errors reported, an exception nothing catches, the engine
    run. *)
Inductive cli_outcome (a : args) (st : state) : result unit * state -> Prop :=
| Generated st' :
    generate a = true ->
    stderr st' = stderr st -> engine_calls st' = engine_calls st ->
    cli_outcome a st (Val tt, st')
| Failed f :
    cli_outcome a st (Exit 1, failed f st)
| Crashed x st' :
    stdout st' = stdout st -> stderr st' = stderr st ->
    engine_calls st' = engine_calls st ->
    cli_outcome a st (Raise x, st')
| Ran pytest_args :
    generate a = false ->
    cli_outcome a st (ran pytest_args st).

(** A test file carries a mark when the marker text is in it. *)
Definition carries (f : gmap string node) (marker p : string) : Prop :=
  exists text, f !! p = Some (File text) /\ contains marker text = true.

(** The test types that need a test file with the public mark. *)
Definition public_or_all (t : TestType) : bool :=
  match t with
  | PUBLIC | ALL => true
  | AUTH => false
  end.

(** The path [get_config_path] answers. *)
Definition config_target (e : env) (config_dir : option string) : string :=
  match config_dir with
  | Some (String _ _ as d) => joinpath d "common.yaml"
  | _ => joinpath (cwd e) "common.yaml"
  end.

(** The state a successful generation leaves. *)
Definition generated (config : pyval) (config_path : string) (st st1 : state)
  : state :=
  mkState (<[config_path := File (yaml_dump config)]> (fs st1))
    (stdout st ++ ["Generated configuration file at: " +:+ config_path])
    (stderr st) (engine_calls st).

(** The configuration is a mapping whose [variables] entry is a mapping
    with key [k]. *)
Definition has_key (config : pyval) (k : string) : Prop :=
  exists d vars,
    config = PDict d /\ d !! "variables" = Some (PDict vars)
    /\ is_Some (vars !! k).

(** The shape the data model gives a configuration without credentials: a
    mapping whose [variables] entry is absent, or a mapping without one of
    the two keys. *)
Definition lacks_credentials (d : gmap string pyval) : Prop :=
  d !! "variables" = None
  \/ exists vars,
      d !! "variables" = Some (PDict vars)
      /\ (vars !! "username" = None \/ vars !! "password" = None).



End Notions.

(** * A concrete installation

    One set of collaborators and a few file systems, on which the theorems
    are exercised at the end.  The loader knows the texts below and answers what
    PyYAML answers on them; every other text is refused. *)

Module Scenario.

Definition text_generated : string :=
  "variables:" +:+ nl +:+ "  host: http://localhost:8000" +:+ nl
  +:+ "  solution_id: 2" +:+ nl +:+ "  user_id: 5" +:+ nl.

Definition text_auth : string :=
  "variables:" +:+ nl +:+ "  host: http://localhost:8000" +:+ nl
  +:+ "  password: secret" +:+ nl +:+ "  solution_id: 2" +:+ nl
  +:+ "  user_id: 5" +:+ nl +:+ "  username: tester" +:+ nl.

(** [variables:] with nothing under it loads as [None]. *)
Definition text_null : string := "variables:" +:+ nl.

Definition text_list : string := "variables: [username, password]" +:+ nl.


Definition config_generated : pyval :=
  build_config "http://localhost:8000" 5 2 None None.

Definition config_auth : pyval :=
  build_config "http://localhost:8000" 5 2 (Some "tester") (Some "secret").

Definition config_null : pyval := PDict {[ "variables" := PNone ]}.

Definition config_list : pyval :=
  PDict {[ "variables" := PList [PStr "username"; PStr "password"] ]}.

Definition safe_load (text : string) : exn + pyval :=
  if String.eqb text text_generated then inr config_generated
  else if String.eqb text text_auth then inr config_auth
  else if String.eqb text text_null then inr config_null
  else if String.eqb text text_list then inr config_list
  else inl YAMLError.

(** The engine finds no test to run (pytest's exit code 5). *)
Definition ext : External := {|
  capture := unit;
  yaml_dump := fun _ => text_generated;
  yaml_safe_load := safe_load;
  pytest_main := fun _ _ => (5, tt);
  format_results := fun _ => "summary"
|}.

Definition here : env :=
  mkEnv "/work" "/home/u/.config/nbsinfra_verify" "/pkg".

Definition test_auth : string := "/pkg/tests/test_auth.tavern.yaml".
Definition test_public : string := "/pkg/tests/test_public.tavern.yaml".

Definition tests : gmap string node :=
  <["/pkg/tests" := Dir]>
    (<[test_auth :=
         File ("test_name: login" +:+ nl +:+ auth_marker +:+ nl)]>
       (<[test_public :=
            File ("test_name: list" +:+ nl +:+ public_marker +:+ nl)]> ∅)).

Definition installed (config_text : string) : state :=
  mkState (<["/work/common.yaml" := File config_text]> tests) [] [] [].

Definition fresh : state := mkState tests [] [] [].

Definition user_only : state :=
  mkState
    (<["/home/u/.config/nbsinfra_verify/common.yaml" := File text_auth]> tests)
    [] [] [].

Definition run (t : TestType) : args :=
  mkArgs false None None 1 None None 1 t.


Definition gen (host username password : option string) : args :=
  mkArgs true None host 5 username password 2 ALL.

Definition gen_in (d : string) : args :=
  mkArgs true (Some d) (Some "http://localhost:8000") 5 None None 2 ALL.

(** Installations whose test directory holds the public test only, holds
    nothing, or holds a directory named like a test file. *)
Definition public_only : state :=
  mkState
    (<["/work/common.yaml" := File text_auth]>
       (<["/pkg/tests" := Dir]>
          (<[test_public :=
               File ("test_name: list" +:+ nl +:+ public_marker +:+ nl)]> ∅)))
    [] [] [].


(** [/opt/cfg] is a plain file. *)
Definition config_dir_is_file : state :=
  mkState (<["/opt/cfg" := File "notes"]> tests) [] [] [].


Definition broken_entry : string := "/pkg/tests/broken.tavern.yaml".

Definition with_directory_entry : state :=
  mkState (<[broken_entry := Dir]> (fs (installed text_auth))) [] [] [].

End Scenario.

(** * Properties *)

(** ** Substrings *)

Lemma append_cons (c : ascii) (a b : string) :
  String c a +:+ b = String c (a +:+ b).
Proof. reflexivity. Qed.

Lemma append_assoc (a b c : string) : (a +:+ b) +:+ c = a +:+ (b +:+ c).
Proof. induction a as [|x a IH]; [done|]. by rewrite !append_cons, IH. Qed.

Lemma prefix_append (a b : string) :
  String.prefix a b = true <-> exists post, b = a +:+ post.
Proof.
  revert b. induction a as [|c a IH]; intros b.
  - split; [by exists b | by destruct b].
  - destruct b as [|c' b]; simpl.
    + split; [discriminate | intros [post Hpost]; discriminate].
    + case_match.
      * subst c'. rewrite IH. split; intros [post Hpost]; exists post.
        -- by rewrite append_cons, Hpost.
        -- rewrite append_cons in Hpost. by injection Hpost.
      * split; [discriminate | intros [post Hpost]].
        rewrite append_cons in Hpost. injection Hpost as Hc _. by subst c'.
Qed.

Lemma contains_unfold (sub s : string) :
  contains sub s =
  String.prefix sub s ||
  match s with
  | EmptyString => false
  | String _ s' => contains sub s'
  end.
Proof. by destruct s. Qed.

(** [contains] is textual presence: the text is some prefix, the pattern,
    and some rest. *)
Lemma contains_spec (sub s : string) :
  contains sub s = true <-> exists pre post, s = pre +:+ sub +:+ post.
Proof.
  split.
  - induction s as [|c s IH]; rewrite contains_unfold; intros Hc;
      apply orb_true_iff in Hc as [Hp|Hs]; try discriminate.
    + apply prefix_append in Hp as [post Hpost]. by exists EmptyString, post.
    + apply prefix_append in Hp as [post Hpost]. by exists EmptyString, post.
    + destruct (IH Hs) as (pre & post & ->). by exists (String c pre), post.
  - intros (pre & post & ->). induction pre as [|c pre IH].
    + rewrite contains_unfold. apply orb_true_iff. left.
      apply prefix_append. by exists post.
    + rewrite append_cons, contains_unfold, IH. apply orb_true_r.
Qed.

(** ** Stages that only look: gates *)

Section Properties.
Context `{External}.

Lemma fail_eq {A} (f : failure) (st : state) :
  fail (A:=A) f st = (Exit 1, failed f st).
Proof. reflexivity. Qed.

Lemma gate_ret {A} (a : A) : gate (ret a).
Proof. intros st. constructor. Qed.

Lemma gate_fail {A} (f : failure) : gate (fail (A:=A) f).
Proof. intros st. rewrite fail_eq. constructor. Qed.

Lemma gate_lift {A} (r : exn + A) : gate (lift r).
Proof. intros st. destruct r; constructor. Qed.

Lemma gate_bind {A B} (m : M A) (k : A -> M B) :
  gate m -> (forall a, gate (k a)) -> gate (bind m k).
Proof.
  intros Hm Hk st. unfold bind.
  destruct (Hm st) as [a|f|x]; [apply Hk | constructor | constructor].
Qed.

Lemma gate_path_exists (p : string) : gate (path_exists p).
Proof. intros st. constructor. Qed.

Lemma gate_read_text (p : string) : gate (read_text p).
Proof.
  intros st. unfold read_text.
  destruct (fs st !! p) as [[|text]|]; constructor.
Qed.

Lemma gate_find_config (e : env) : gate (find_config e).
Proof. intros st. constructor. Qed.

Lemma gate_glob (test_dir : string) : gate (glob test_dir).
Proof. intros st. constructor. Qed.

Lemma gate_scan_marks (test_files : list string) (flags : bool * bool) :
  gate (scan_marks test_files flags).
Proof.
  revert flags. induction test_files as [|p rest IH]; intros flags; simpl.
  - apply gate_ret.
  - apply gate_bind; [apply gate_read_text | intros content; apply IH].
Qed.

Create HintDb gates.
#[local] Hint Resolve gate_ret gate_fail gate_lift gate_path_exists
  gate_read_text gate_find_config gate_glob gate_scan_marks : gates.

Ltac gates :=
  repeat first
    [ solve [eauto with gates]
    | apply gate_bind; [|intros ?]
    | match goal with
      | |- gate (match ?x with _ => _ end) => destruct x
      | |- gate (if ?b then _ else _) => destruct b
      end ].

Lemma gate_locate (e : env) (config_dir : option string) :
  gate (locate e config_dir).
Proof. unfold locate. gates. Qed.

Lemma gate_load_config (config_path : string) : gate (load_config config_path).
Proof. unfold load_config. gates. Qed.

Lemma gate_check_auth_config (config : pyval) (t : TestType) :
  gate (check_auth_config config t).
Proof. unfold check_auth_config. gates. Qed.

Lemma gate_check_test_files (t : TestType) (ha hp : bool) :
  gate (check_test_files t ha hp).
Proof. unfold check_test_files. gates. Qed.

Lemma gate_check_tests (test_dir : string) (t : TestType) :
  gate (check_tests test_dir t).
Proof.
  unfold check_tests, check_test_dir. gates.
Qed.

(** What a [bind] on a gate can do. *)
Lemma gate_bind_inv {A B} (m : M A) (k : A -> M B) st r st' :
  gate m -> bind m k st = (r, st') ->
  (exists a, m st = (Val a, st) /\ k a st = (r, st'))
  \/ (exists f, r = Exit 1 /\ st' = failed f st)
  \/ (exists x, r = Raise x /\ st' = st).
Proof.
  intros Hm. unfold bind. specialize (Hm st).
  inversion Hm as [a Ha|f Hf|x Hx]; intros Hk.
  - left. eauto.
  - right; left. exists f. by injection Hk as <- <-.
  - right; right. exists x. by injection Hk as <- <-.
Qed.

(** ** What a test run goes through *)

(** A test run fails at a gate, dies of an exception at a gate, or passes
    all four gates on the unchanged state and runs the engine. *)
Lemma run_tests_inv (e : env) (a : args) st r st' :
  run_tests e a st = (r, st') ->
  (exists f, r = Exit 1 /\ st' = failed f st)
  \/ (exists x, r = Raise x /\ st' = st)
  \/ (exists config_path config,
        locate e (config_dir a) st = (Val config_path, st)
        /\ load_config config_path st = (Val config, st)
        /\ check_auth_config config (test_type a) st = (Val tt, st)
        /\ check_tests (test_dir_of e) (test_type a) st = (Val tt, st)
        /\ (r, st') =
           ran (pytest_args (test_dir_of e) config_path (test_type a)) st).
Proof.
  unfold run_tests. intros Hrun.
  apply gate_bind_inv in Hrun as [(p & Hp & Hrun)|[?|?]];
    [|by auto..|apply gate_locate].
  apply gate_bind_inv in Hrun as [(config & Hc & Hrun)|[?|?]];
    [|by auto..|apply gate_load_config].
  apply gate_bind_inv in Hrun as [([] & Ha & Hrun)|[?|?]];
    [|by auto..|apply gate_check_auth_config].
  apply gate_bind_inv in Hrun as [([] & Ht & Hrun)|[?|?]];
    [|by auto..|apply gate_check_tests].
  right; right. exists p, config. by repeat split.
Qed.

(** ** The terminal states of the tool *)

Lemma generate_config_outcome (e : env) (a : args) st :
  generate a = true -> cli_outcome a st (generate_config e a st).
Proof.
  intros Hg. unfold generate_config.
  destruct (host a) as [[|c h]|]; try by rewrite fail_eq; constructor.
  unfold get_config_path, bind, mkdir_parents, save_yaml, echo, ret, set_fs.
  repeat (case_match; simplify_eq/=); by constructor.
Qed.


(** ** The gates, one by one *)

Lemma locate_explicit (e : env) (d : string) st :
  d <> EmptyString ->
  locate e (Some d) st =
  if bool_decide (is_Some (fs st !! joinpath d "common.yaml"))
  then (Val (joinpath d "common.yaml"), st)
  else (Exit 1, failed (ConfigNotFoundAt (joinpath d "common.yaml")) st).
Proof.
  intros Hd. destruct d as [|c d]; [done|].
  unfold locate, bind, path_exists. by case_bool_decide.
Qed.

Lemma locate_search (e : env) (config_dir : option string) st :
  truthy config_dir = false ->
  locate e config_dir st =
  match first_existing (fs st) (get_config_locations e) with
  | Some p => (Val p, st)
  | None => (Exit 1, failed (ConfigNotFound (get_config_locations e)) st)
  end.
Proof.
  intros Hd. unfold locate, bind, find_config.
  destruct config_dir as [[|c d]|]; try done; by case_match.
Qed.

Lemma first_existing_Some (f : gmap string node) paths p :
  first_existing f paths = Some p -> p ∈ paths /\ is_Some (f !! p).
Proof.
  induction paths as [|q rest IH]; simpl; [done|].
  case_bool_decide as Hq.
  - intros [= <-]. split; [left | done].
  - intros Hp. destruct (IH Hp). split; [by right | done].
Qed.

(** Whatever [locate] returns exists. *)
Lemma locate_val (e : env) (config_dir : option string) st p st' :
  locate e config_dir st = (Val p, st') ->
  st' = st /\ is_Some (fs st !! p).
Proof.
  destruct (truthy config_dir) eqn:Ht.
  - destruct config_dir as [[|c d]|]; try done.
    rewrite locate_explicit by done. case_bool_decide; [|done].
    by intros [= <- <-].
  - rewrite locate_search by done.
    destruct (first_existing _ _) eqn:Hf; [|done].
    intros [= <- <-]. by apply first_existing_Some in Hf as [_ ?].
Qed.

Lemma load_config_val (config_path : string) st config st' :
  load_config config_path st = (Val config, st') ->
  exists text,
    fs st !! config_path = Some (File text)
    /\ yaml_safe_load text = inr config.
Proof.
  unfold load_config, bind, read_text, lift.
  destruct (fs st !! config_path) as [[|text]|]; try done.
  destruct (yaml_safe_load text) eqn:Hl; [done|].
  intros [= <- _]. eauto.
Qed.

Lemma load_config_file (config_path text : string) st :
  fs st !! config_path = Some (File text) ->
  load_config config_path st = lift (yaml_safe_load text) st.
Proof. intros Hf. unfold load_config, bind, read_text. by rewrite Hf. Qed.

(** The credential check, by the value of [has_auth_config]. *)
Lemma check_auth_config_eq (config : pyval) (t : TestType) st :
  check_auth_config config t st =
  match has_auth_config config with
  | inl x => (Raise x, st)
  | inr has_auth =>
      if auth_or_all t && negb has_auth
      then (Exit 1, failed (AuthConfigMissing t) st)
      else (Val tt, st)
  end.
Proof.
  unfold check_auth_config, bind, lift.
  destruct (has_auth_config config) as [x|b]; [done|].
  by destruct (auth_or_all t && negb b).
Qed.

(** Line 157 is true only for a mapping with a [variables] entry in which
    Python finds both names. *)
Lemma has_auth_config_true (config : pyval) :
  has_auth_config config = inr true ->
  exists d vars,
    config = PDict d /\ d !! "variables" = Some vars
    /\ py_in "username" vars = inr true
    /\ py_in "password" vars = inr true.
Proof.
  unfold has_auth_config. destruct config as [| | | | |d]; try done.
  simpl. destruct (d !! "variables") as [vars|] eqn:Hv; simpl.
  - destruct (py_in "username" vars) as [x|[]] eqn:Hu; try done.
    intros Hp. by exists d, vars.
  - done.
Qed.

Lemma carries_cons_flag (f : gmap string node) marker q text rest (b : bool) :
  f !! q = Some (File text) ->
  ((if contains marker text then true else b) = true
   \/ exists p, p ∈ rest /\ carries f marker p)
  <-> (b = true \/ exists p, p ∈ q :: rest /\ carries f marker p).
Proof.
  intros Hq. split.
  - intros [Hf|(p & Hin & Hc)].
    + destruct (contains marker text) eqn:Hc; [|by left].
      right. exists q. split; [by left | by exists text].
    + right. exists p. split; [by right | done].
  - intros [Hf|(p & Hin & Hc)].
    + left. rewrite Hf. by case_match.
    + apply elem_of_cons in Hin as [->|Hin].
      * destruct Hc as (text' & Hq' & Hc). simplify_eq. left. by rewrite Hc.
      * right. by exists p.
Qed.

Lemma scan_marks_val (test_files : list string) flags st ha hp st' :
  scan_marks test_files flags st = (Val (ha, hp), st') ->
  (ha = true <->
     fst flags = true
     \/ exists p, p ∈ test_files /\ carries (fs st) auth_marker p)
  /\ (hp = true <->
     snd flags = true
     \/ exists p, p ∈ test_files /\ carries (fs st) public_marker p).
Proof.
  revert flags. induction test_files as [|q rest IH]; intros flags; simpl.
  - intros [= -> _]. simpl.
    split; (split; [by left | intros [?|(p & Hp & _)]; [done|]]);
      by apply elem_of_nil in Hp.
  - unfold bind, read_text.
    destruct (fs st !! q) as [[|text]|] eqn:Hq; try done.
    intros Hscan. apply IH in Hscan as [Ha Hp]. simpl in Ha, Hp.
    rewrite Ha, Hp. split; by apply carries_cons_flag.
Qed.

Lemma check_test_files_val (t : TestType) (ha hp : bool) st u st' :
  check_test_files t ha hp st = (Val u, st') ->
  (auth_or_all t = true -> ha = true)
  /\ (public_or_all t = true -> hp = true).
Proof.
  destruct t, ha, hp; intros Hc; (split; intros Ht; try done);
    by inversion Hc.
Qed.

Lemma check_test_files_all (ha hp : bool) st :
  ha && hp = false ->
  check_test_files ALL ha hp st =
  (Exit 1, failed (MissingTypes ALL (missing_types ha hp)) st).
Proof. by destruct ha, hp. Qed.

(** [missing] holds exactly the categories without a marked file. *)
Lemma missing_types_spec (ha hp : bool) (c : string) :
  c ∈ missing_types ha hp <->
  (c = "auth" /\ ha = false) \/ (c = "public" /\ hp = false).
Proof.
  unfold missing_types. destruct ha, hp; simpl;
    rewrite ?elem_of_cons, ?elem_of_nil; intuition congruence.
Qed.

Lemma check_tests_eq (test_dir : string) (t : TestType) st :
  is_Some (fs st !! test_dir) ->
  check_tests test_dir t st =
  bind (scan_marks (glob_tests (fs st) test_dir) (false, false))
    (fun flags => check_test_files t (fst flags) (snd flags)) st.
Proof.
  intros Hd. unfold check_tests, check_test_dir, bind at 1 2, path_exists.
  rewrite bool_decide_eq_true_2 by done. simpl.
  by unfold bind at 1, glob.
Qed.

Lemma check_tests_val (test_dir : string) (t : TestType) st u st' :
  check_tests test_dir t st = (Val u, st') ->
  is_Some (fs st !! test_dir)
  /\ exists ha hp,
      scan_marks (glob_tests (fs st) test_dir) (false, false) st
      = (Val (ha, hp), st)
      /\ (auth_or_all t = true -> ha = true)
      /\ (public_or_all t = true -> hp = true).
Proof.
  intros Hc. destruct (decide (is_Some (fs st !! test_dir))) as [Hd|Hd].
  - split; [done|]. rewrite check_tests_eq in Hc by done.
    apply gate_bind_inv in Hc as [([ha hp] & Hs & Hc)|[(f & ? & _)|(x & ? & _)]];
      [|done..|apply gate_scan_marks].
    exists ha, hp. split; [done|]. by apply check_test_files_val in Hc.
  - exfalso. revert Hc.
    unfold check_tests, check_test_dir, bind at 1 2, path_exists.
    rewrite bool_decide_eq_false_2 by done. simpl. intros Hc. inversion Hc.
Qed.

(** Passing the marks gate means a discovered file carries each mark the
    test type asks for. *)
Lemma check_tests_marks (test_dir : string) (t : TestType) st u st' :
  check_tests test_dir t st = (Val u, st') ->
  (auth_or_all t = true ->
     exists p, p ∈ glob_tests (fs st) test_dir
               /\ carries (fs st) auth_marker p)
  /\ (public_or_all t = true ->
     exists p, p ∈ glob_tests (fs st) test_dir
               /\ carries (fs st) public_marker p).
Proof.
  intros Hc. apply check_tests_val in Hc as (_ & ha & hp & Hs & Ha & Hp).
  apply scan_marks_val in Hs as [Hsa Hsp]. simpl in Hsa, Hsp.
  split; intros Ht.
  - apply Ha, Hsa in Ht as [?|?]; done.
  - apply Hp, Hsp in Ht as [?|?]; done.
Qed.

Lemma app_singleton_neq {A} (l : list A) (x : A) : l ++ [x] <> l.
Proof.
  intros Heq. apply (f_equal length) in Heq.
  rewrite length_app in Heq. simpl in Heq. lia.
Qed.

(** A run that called the engine passed the four gates. *)
Lemma cli_ran_inv (e : env) (a : args) st r st' :
  cli e a st = (r, st') ->
  engine_calls st' <> engine_calls st ->
  generate a = false
  /\ exists config_path config,
      locate e (config_dir a) st = (Val config_path, st)
      /\ load_config config_path st = (Val config, st)
      /\ check_auth_config config (test_type a) st = (Val tt, st)
      /\ check_tests (test_dir_of e) (test_type a) st = (Val tt, st)
      /\ (r, st') =
         ran (pytest_args (test_dir_of e) config_path (test_type a)) st.
Proof.
  intros Hcli Hcalls. unfold cli in Hcli. destruct (generate a) eqn:Hg.
  - pose proof (generate_config_outcome e a st Hg) as Ho.
    rewrite Hcli in Ho. inversion Ho; subst; simpl in *; congruence.
  - split; [done|].
    apply run_tests_inv in Hcli as [(f & -> & ->)|[(x & -> & ->)|Hran]];
      done.
Qed.

(** ** The generator *)

Lemma get_config_path_val (e : env) (config_dir : option string) st p st1 :
  get_config_path e config_dir st = (Val p, st1) ->
  p = config_target e config_dir
  /\ stdout st1 = stdout st /\ stderr st1 = stderr st
  /\ engine_calls st1 = engine_calls st.
Proof.
  unfold get_config_path, config_target, bind, mkdir_parents, ret, set_fs.
  intros Hp. repeat (case_match; simplify_eq/=); done.
Qed.

Lemma generate_config_ok (e : env) (a : args) st h config_path st1 :
  host a = Some h -> h <> EmptyString ->
  get_config_path e (config_dir a) st = (Val config_path, st1) ->
  fs st1 !! config_path <> Some Dir ->
  generate_config e a st =
  (Val tt,
   generated (build_config h (testid a) (solution a) (username a) (password a))
     config_path st st1).
Proof.
  intros Hh Hne Hp Hd. unfold generate_config. rewrite Hh.
  destruct h as [|c h]; [done|].
  apply get_config_path_val in Hp as Hst. destruct Hst as (_ & Ho & He & Hc).
  unfold bind at 1. rewrite Hp. unfold bind, save_yaml, echo, generated.
  destruct (fs st1 !! config_path) as [[|text]|] eqn:Hf; try done;
    simpl; by rewrite Ho, He, Hc.
Qed.

Lemma generate_config_val (e : env) (a : args) st u st' :
  generate_config e a st = (Val u, st') ->
  exists h config_path st1,
    host a = Some h /\ h <> EmptyString
    /\ get_config_path e (config_dir a) st = (Val config_path, st1)
    /\ fs st1 !! config_path <> Some Dir
    /\ st' =
       generated
         (build_config h (testid a) (solution a) (username a) (password a))
         config_path st st1.
Proof.
  intros Hgen. destruct (host a) as [[|c h]|] eqn:Hh;
    try (unfold generate_config in Hgen; rewrite Hh in Hgen; by inversion Hgen).
  destruct (get_config_path e (config_dir a) st) as [[p| |] st1] eqn:Hp;
    try (unfold generate_config in Hgen; rewrite Hh in Hgen;
         unfold bind at 1 in Hgen; rewrite Hp in Hgen; by inversion Hgen).
  destruct (decide (fs st1 !! p = Some Dir)) as [Hd|Hd].
  - unfold generate_config in Hgen. rewrite Hh in Hgen.
    unfold bind at 1 in Hgen. rewrite Hp in Hgen.
    unfold bind, save_yaml in Hgen. rewrite Hd in Hgen. by inversion Hgen.
  - exists (String c h), p, st1. repeat split; try done.
    rewrite (generate_config_ok e a st (String c h) p st1) in Hgen by done.
    by inversion Hgen.
Qed.

(** The mapping written has the host under [variables]. *)
Lemma build_config_host (h : string) (testid solution : Z)
    (username password : option string) :
  exists vars,
    build_config h testid solution username password
    = PDict {[ "variables" := PDict vars ]}
    /\ vars !! "host" = Some (PStr h)
    /\ vars !! "user_id" = Some (PInt testid)
    /\ vars !! "solution_id" = Some (PInt solution).
Proof.
  unfold build_config.
  destruct username as [[|c u]|], password as [[|c' pw]|];
    eexists; (split; [reflexivity|]); by simplify_map_eq.
Qed.

(** Credentials go in only as a pair of non-empty strings. *)
Lemma build_config_no_credentials (h : string) (testid solution : Z)
    (username password : option string) :
  truthy username && truthy password = false ->
  build_config h testid solution username password
  = PDict {[ "variables" :=
      PDict (<["solution_id" := PInt solution]>
               (<["user_id" := PInt testid]> {[ "host" := PStr h ]})) ]}.
Proof. by destruct username as [[|c u]|], password as [[|c' pw]|]. Qed.

Lemma locate_target (e : env) (config_dir : option string) st :
  is_Some (fs st !! config_target e config_dir) ->
  locate e config_dir st = (Val (config_target e config_dir), st).
Proof.
  intros Hex. destruct (truthy config_dir) eqn:Ht.
  - destruct config_dir as [[|c d]|]; try done.
    rewrite locate_explicit by done. simpl in Hex.
    by rewrite bool_decide_eq_true_2.
  - rewrite locate_search by done.
    assert (config_target e config_dir = joinpath (cwd e) "common.yaml") as Hc
      by (by destruct config_dir as [[|c d]|]).
    rewrite Hc in *. simpl. by rewrite bool_decide_eq_true_2.
Qed.

Lemma cli_generate (e : env) (a : args) st :
  generate a = true -> cli e a st = generate_config e a st.
Proof. unfold cli. by intros ->. Qed.

Lemma cli_run (e : env) (a : args) st :
  generate a = false -> cli e a st = run_tests e a st.
Proof. unfold cli. by intros ->. Qed.

(** ** The claims about the generator *)

(** C5. [--generate] without a host value ([--host] absent or empty) exits
    with code 1 after one message on the error stream, and the file system
    is the one the run started with: nothing is written. *)
Theorem generate_without_host (e : env) (a : args) st :
  generate a = true -> truthy (host a) = false ->
  exists st',
    cli e a st = (Exit 1, st')
    /\ fs st' = fs st
    /\ stdout st' = stdout st
    /\ stderr st' = stderr st ++ [message MissingHost]
    /\ engine_calls st' = engine_calls st.
Proof.
  intros Hg Hh. exists (failed MissingHost st).
  rewrite cli_generate by done. unfold generate_config.
  by destruct (host a) as [[|c h]|].
Qed.

(** C8. [--generate --host http://localhost:8000 --testid 5 --solution 2]
    writes the dump of a configuration whose [variables] mapping is exactly
    host, user_id 5 and solution_id 2, with no username and no password
    key. *)
Theorem generate_example (e : env) (a : args) st st' :
  generate a = true ->
  host a = Some "http://localhost:8000" -> testid a = 5 -> solution a = 2 ->
  username a = None -> password a = None ->
  cli e a st = (Val tt, st') ->
  let variables : gmap string pyval :=
    {[ "host" := PStr "http://localhost:8000";
       "user_id" := PInt 5; "solution_id" := PInt 2 ]} in
  fs st' !! config_target e (config_dir a)
  = Some (File (yaml_dump (PDict {[ "variables" := PDict variables ]})))
  /\ variables !! "username" = None
  /\ variables !! "password" = None.
Proof.
  intros Hg Hh Ht Hs Hu Hp Hcli variables.
  rewrite cli_generate in Hcli by done.
  apply generate_config_val in Hcli
    as (h & config_path & st1 & Hh' & _ & Hpath & _ & ->).
  apply get_config_path_val in Hpath as (-> & _).
  rewrite Hh in Hh'. injection Hh' as <-. rewrite Ht, Hs, Hu, Hp.
  split; [|done]. unfold generated. simpl. by rewrite lookup_insert_eq.
Qed.

(** C10. When the username and the password are not both supplied as
    non-empty strings, a generation that can write its file writes a
    configuration without either key, prints the success message, and
    leaves the error stream as it was. *)
Theorem incomplete_credentials_omitted (e : env) (a : args) st h
    config_path st1 :
  generate a = true -> host a = Some h -> h <> EmptyString ->
  truthy (username a) && truthy (password a) = false ->
  get_config_path e (config_dir a) st = (Val config_path, st1) ->
  fs st1 !! config_path <> Some Dir ->
  exists vars st',
    cli e a st = (Val tt, st')
    /\ fs st' !! config_path
       = Some (File (yaml_dump (PDict {[ "variables" := PDict vars ]})))
    /\ vars !! "username" = None /\ vars !! "password" = None
    /\ vars !! "host" = Some (PStr h)
    /\ stdout st'
       = stdout st ++ ["Generated configuration file at: " +:+ config_path]
    /\ stderr st' = stderr st
    /\ engine_calls st' = engine_calls st.
Proof.
  intros Hg Hh Hne Hcred Hpath Hd.
  eexists _, _. rewrite cli_generate by done.
  rewrite (generate_config_ok e a st h config_path st1) by done.
  rewrite build_config_no_credentials by done.
  split; [reflexivity|]. unfold generated. simpl.
  rewrite lookup_insert_eq. by simplify_map_eq.
Qed.

(** C4. After a successful generation with a non-empty host, locating the
    configuration with the same [--config-dir] setting (given or not)
    returns the path that was written, and what is loaded from it is the
    configuration written, with the same host; PyYAML is taken to load
    back what it dumped. *)
Theorem generate_locate_roundtrip (e : env) (a : args) st st' h :
  generate a = true -> host a = Some h -> h <> EmptyString ->
  cli e a st = (Val tt, st') ->
  let config :=
    build_config h (testid a) (solution a) (username a) (password a) in
  yaml_safe_load (yaml_dump config) = inr config ->
  exists config_path st1,
    get_config_path e (config_dir a) st = (Val config_path, st1)
    /\ fs st' !! config_path = Some (File (yaml_dump config))
    /\ locate e (config_dir a) st' = (Val config_path, st')
    /\ load_config config_path st' = (Val config, st')
    /\ exists vars,
        config = PDict {[ "variables" := PDict vars ]}
        /\ vars !! "host" = Some (PStr h).
Proof.
  intros Hg Hh Hne Hcli config Hyaml.
  rewrite cli_generate in Hcli by done.
  apply generate_config_val in Hcli
    as (h' & config_path & st1 & Hh' & _ & Hpath & _ & Hst).
  rewrite Hh in Hh'. injection Hh' as <-. fold config in Hst. subst st'.
  exists config_path, st1. split; [done|].
  apply get_config_path_val in Hpath as (-> & _).
  assert (Hf : fs (generated config (config_target e (config_dir a)) st st1)
               !! config_target e (config_dir a)
               = Some (File (yaml_dump config)))
    by (unfold generated; simpl; by rewrite lookup_insert_eq).
  split; [done|]. split; [apply locate_target; by rewrite Hf|].
  split.
  - rewrite (load_config_file _ _ _ Hf). unfold lift.
    by rewrite Hyaml.
  - destruct (build_config_host h (testid a) (solution a)
                (username a) (password a)) as (vars & Hc & Hv & _).
    by exists vars.
Qed.

(** ** The claims about locating the configuration *)

(** C7. With an explicit (non-empty) directory only [common.yaml] in that
    directory is looked at: it is returned when it exists, and otherwise the
    run fails naming that one path, whatever lies in the current or the user
    configuration directory.  Without one, the current directory comes
    first and the user configuration directory second; when neither has the
    file the error enumerates both locations. *)
Theorem locate_order (e : env) st :
  let here := joinpath (cwd e) "common.yaml" in
  let user := joinpath (app_dir e) "common.yaml" in
  (forall d, d <> EmptyString ->
     let there := joinpath d "common.yaml" in
     (is_Some (fs st !! there) -> locate e (Some d) st = (Val there, st))
     /\ (fs st !! there = None ->
         locate e (Some d) st = (Exit 1, failed (ConfigNotFoundAt there) st)))
  /\ (forall config_dir, truthy config_dir = false ->
     (is_Some (fs st !! here) -> locate e config_dir st = (Val here, st))
     /\ (fs st !! here = None -> is_Some (fs st !! user) ->
         locate e config_dir st = (Val user, st))
     /\ (fs st !! here = None -> fs st !! user = None ->
         locate e config_dir st
         = (Exit 1, failed (ConfigNotFound [here; user]) st)
         /\ message (ConfigNotFound [here; user])
            = "Error: Configuration file not found in any of these locations:"
              +:+ nl +:+ "  " +:+ here +:+ nl +:+ "  " +:+ user +:+ nl +:+ nl
              +:+ "Please run with --generate flag first to create configuration.")).
Proof.
  intros here user. split.
  - intros d Hd there. rewrite locate_explicit by done. fold there. split.
    + intros Hex. by rewrite bool_decide_eq_true_2.
    + intros Hno. rewrite bool_decide_eq_false_2; [done|].
      rewrite Hno. by intros [? ?].
  - intros config_dir Hd. rewrite locate_search by done.
    unfold get_config_locations. fold here user. simpl.
    split; [|split].
    + intros Hex. by rewrite bool_decide_eq_true_2.
    + intros Hno Hex. rewrite bool_decide_eq_false_2.
      * by rewrite bool_decide_eq_true_2.
      * rewrite Hno. by intros [? ?].
    + intros Hno Hno'.
      rewrite !bool_decide_eq_false_2; [|rewrite ?Hno, ?Hno'; by intros [? ?]..].
      split; [done|]. unfold message. simpl.
      by rewrite !append_assoc.
Qed.

(** ** The claims about the marks *)

(** C6. The loop over the test files sets [has_auth_tests] (resp.
    [has_public_tests]) exactly when some file's text is a prefix, the
    marker text for that category, and a rest; the same YAML written in flow
    style or with an indented list does not contain the marker text and is
    not detected. *)
Theorem marks_by_text (test_files : list string) st ha hp st' :
  scan_marks test_files (false, false) st = (Val (ha, hp), st') ->
  (ha = true <->
     exists p text pre post,
       p ∈ test_files /\ fs st !! p = Some (File text)
       /\ text = pre +:+ auth_marker +:+ post)
  /\ (hp = true <->
     exists p text pre post,
       p ∈ test_files /\ fs st !! p = Some (File text)
       /\ text = pre +:+ public_marker +:+ post)
  /\ contains auth_marker "marks: [auth]" = false
  /\ contains auth_marker ("marks:" +:+ nl +:+ "  - auth") = false
  /\ contains public_marker "marks: [public]" = false
  /\ contains public_marker ("marks:" +:+ nl +:+ "  - public") = false.
Proof.
  intros Hs. apply scan_marks_val in Hs as [Ha Hp]. simpl in Ha, Hp.
  split; [|split; [|by vm_compute]].
  - rewrite Ha. split.
    + intros [?|(p & Hin & text & Hf & Hc)]; [done|].
      apply contains_spec in Hc as (pre & post & ->).
      by eexists p, _, pre, post.
    + intros (p & text & pre & post & Hin & Hf & ->). right.
      exists p. split; [done|]. eexists. split; [done|].
      apply contains_spec. by exists pre, post.
  - rewrite Hp. split.
    + intros [?|(p & Hin & text & Hf & Hc)]; [done|].
      apply contains_spec in Hc as (pre & post & ->).
      by eexists p, _, pre, post.
    + intros (p & text & pre & post & Hin & Hf & ->). right.
      exists p. split; [done|]. eexists. split; [done|].
      apply contains_spec. by exists pre, post.
Qed.

(** ** The claims about the gates of a test run *)

Lemma bind_val {A B} (m : M A) (k : A -> M B) st a st1 :
  m st = (Val a, st1) -> bind m k st = k a st1.
Proof. unfold bind. by intros ->. Qed.

Lemma py_in_dict_true (k : string) (m : gmap string pyval) :
  py_in k (PDict m) = inr true -> is_Some (m !! k).
Proof. simpl. intros [= Hb]. by apply bool_decide_eq_true in Hb. Qed.

Lemma has_auth_config_lacking (d : gmap string pyval) :
  lacks_credentials d -> has_auth_config (PDict d) = inr false.
Proof.
  unfold has_auth_config. simpl.
  intros [Hv|(vars & Hv & Hk)]; rewrite Hv; simpl; [done|].
  destruct (vars !! "username") as [u|] eqn:Hu.
  - destruct Hk as [?|Hp]; [done|].
    rewrite bool_decide_eq_true_2 by done. by rewrite Hp.
  - by rewrite bool_decide_eq_false_2 by (by intros [? ?]).
Qed.

(** C1 (amended). A test run calls the engine only after it has located and
    loaded a configuration and found, for test type auth or all, that the
    configuration is a mapping whose [variables] entry contains both
    [username] and [password] under Python's [in] (its keys, when the
    entry is a mapping) and that a discovered test file carries the auth
    mark, and, for test type public or all, that a discovered test file
    carries the public mark.  When type all reaches the check of the marks
    without both, the run exits with 1 on the message that lists exactly
    the categories without a marked file. *)
Theorem engine_gated (e : env) (a : args) st r st' :
  cli e a st = (r, st') -> generate a = false ->
  (engine_calls st' <> engine_calls st ->
   exists config_path text config,
     locate e (config_dir a) st = (Val config_path, st)
     /\ fs st !! config_path = Some (File text)
     /\ yaml_safe_load text = inr config
     /\ (auth_or_all (test_type a) = true ->
         (exists d vars,
            config = PDict d /\ d !! "variables" = Some vars
            /\ py_in "username" vars = inr true
            /\ py_in "password" vars = inr true
            /\ (forall m, vars = PDict m ->
                  is_Some (m !! "username") /\ is_Some (m !! "password")))
         /\ exists p, p ∈ glob_tests (fs st) (test_dir_of e)
                      /\ carries (fs st) auth_marker p)
     /\ (public_or_all (test_type a) = true ->
         exists p, p ∈ glob_tests (fs st) (test_dir_of e)
                   /\ carries (fs st) public_marker p))
  /\ (forall config_path config ha hp,
       test_type a = ALL ->
       locate e (config_dir a) st = (Val config_path, st) ->
       load_config config_path st = (Val config, st) ->
       check_auth_config config ALL st = (Val tt, st) ->
       is_Some (fs st !! test_dir_of e) ->
       scan_marks (glob_tests (fs st) (test_dir_of e)) (false, false) st
       = (Val (ha, hp), st) ->
       ha && hp = false ->
       (r, st') = (Exit 1, failed (MissingTypes ALL (missing_types ha hp)) st)
       /\ message (MissingTypes ALL (missing_types ha hp))
          = "Error: Test type 'all' requested but some test types are missing: "
            +:+ join ", " (missing_types ha hp) +:+ "." +:+ nl
            +:+ "Make sure all test types are generated before running 'all' tests."
       /\ forall c, c ∈ missing_types ha hp <->
                    (c = "auth" /\ ha = false) \/ (c = "public" /\ hp = false)).
Proof.
  intros Hcli Hg. split.
  - intros Hcalls.
    apply cli_ran_inv in Hcli
      as (_ & p & config & Hloc & Hload & Hauth & Htests & _); [|done].
    apply load_config_val in Hload as (text & Hf & Hy).
    apply check_tests_marks in Htests as [Hma Hmp].
    exists p, text, config.
    split; [done|]. split; [done|]. split; [done|]. split; [|done].
    intros Ht. split; [|by apply Hma].
    rewrite check_auth_config_eq, Ht in Hauth.
    destruct (has_auth_config config) as [x|[]] eqn:Hb; [done| |done].
    apply has_auth_config_true in Hb as (d & vars & -> & Hv & Hu & Hp).
    exists d, vars.
    split; [done|]. split; [done|]. split; [done|]. split; [done|].
    intros m ->. split; by apply py_in_dict_true.
  - intros p config ha hp Ht Hloc Hload Hauth Hdir Hscan Hflags.
    rewrite cli_run in Hcli by done. unfold run_tests in Hcli.
    rewrite (bind_val _ _ _ _ _ Hloc) in Hcli.
    rewrite (bind_val _ _ _ _ _ Hload) in Hcli.
    rewrite Ht in Hcli. rewrite (bind_val _ _ _ _ _ Hauth) in Hcli.
    fold (test_dir_of e) in Hcli. unfold bind at 1 in Hcli.
    rewrite check_tests_eq in Hcli by done.
    rewrite (bind_val _ _ _ _ _ Hscan) in Hcli. simpl in Hcli.
    rewrite check_test_files_all in Hcli by done.
    split; [done|]. split; [done|]. apply missing_types_spec.
Qed.

(** C3 (amended). When the loaded configuration is a mapping whose
    [variables] entry is absent or is a mapping without [username] or
    without [password], the credential check stops test types auth and all
    with the auth-configuration message and exit code 1 (so does the whole
    run), and lets test type public through untouched. *)
Theorem credentials_gate (d : gmap string pyval) st :
  lacks_credentials d ->
  (forall t, auth_or_all t = true ->
     check_auth_config (PDict d) t st
     = (Exit 1, failed (AuthConfigMissing t) st))
  /\ check_auth_config (PDict d) PUBLIC st = (Val tt, st)
  /\ (forall e a config_path,
       generate a = false -> auth_or_all (test_type a) = true ->
       locate e (config_dir a) st = (Val config_path, st) ->
       load_config config_path st = (Val (PDict d), st) ->
       cli e a st = (Exit 1, failed (AuthConfigMissing (test_type a)) st)).
Proof.
  intros Hd. apply has_auth_config_lacking in Hd.
  assert (Hauth : forall t, auth_or_all t = true ->
            check_auth_config (PDict d) t st
            = (Exit 1, failed (AuthConfigMissing t) st)).
  { intros t Ht. rewrite check_auth_config_eq, Hd, Ht. done. }
  split; [done|]. split.
  - by rewrite check_auth_config_eq, Hd.
  - intros e a p Hg Ht Hloc Hload. rewrite cli_run by done.
    unfold run_tests. rewrite (bind_val _ _ _ _ _ Hloc).
    rewrite (bind_val _ _ _ _ _ Hload). unfold bind. by rewrite Hauth.
Qed.

(** ** The claims about how a run ends *)




(** Line 157 on a configuration that is no mapping, or whose [variables]
    entry is no container. *)
Lemma has_auth_config_raises (config : pyval) :
  (forall d, config <> PDict d) ->
  has_auth_config config = inl AttributeError.
Proof. intros Hd. destruct config; try done. by destruct (Hd d). Qed.

Lemma has_auth_config_scalar (d : gmap string pyval) (v : pyval) :
  d !! "variables" = Some v ->
  py_in "username" v = inl TypeError ->
  has_auth_config (PDict d) = inl TypeError.
Proof. unfold has_auth_config. simpl. intros -> Hv. simpl. by rewrite Hv. Qed.

(** C9. A run that calls the engine ends by [sys.exit] with the code the
    engine returned for that call. *)
Theorem exit_code_forwarded (e : env) (a : args) st r st' :
  cli e a st = (r, st') -> engine_calls st' <> engine_calls st ->
  exists config_path,
    let argv := pytest_args (test_dir_of e) config_path (test_type a) in
    engine_calls st' = engine_calls st ++ [argv]
    /\ r = Exit (fst (pytest_main argv (fs st))).
Proof.
  intros Hcli Hcalls.
  apply cli_ran_inv in Hcli as (_ & p & config & _ & _ & _ & _ & Hran);
    [|done].
  exists p. unfold ran in Hran. by injection Hran as -> ->.
Qed.

End Properties.


(** * Further properties of the tool *)

Section Further.
Context `{External}.

Lemma string_length_append (a b : string) :
  String.length (a +:+ b) = (String.length a + String.length b)%nat.
Proof. induction a as [|c a IH]; [done|]. rewrite append_cons. simpl. by rewrite IH. Qed.

Lemma joinpath_neq (d name : string) : joinpath d name <> d.
Proof.
  intros Heq. apply (f_equal String.length) in Heq. unfold joinpath in Heq.
  rewrite !string_length_append in Heq. simpl in Heq. lia.
Qed.

(** X1. A test run writes no file: whatever its outcome, the file system is
    the one it started with, and unless the engine was called standard
    output is untouched too. *)
Theorem test_run_keeps_files (e : env) (a : args) st r st' :
  cli e a st = (r, st') -> generate a = false ->
  fs st' = fs st
  /\ (engine_calls st' = engine_calls st -> stdout st' = stdout st).
Proof.
  intros Hcli Hg. rewrite cli_run in Hcli by done.
  apply run_tests_inv in Hcli
    as [(f & -> & ->)|[(x & -> & ->)|(p & c & _ & _ & _ & _ & Hran)]];
    [done|done|].
  unfold ran in Hran. injection Hran as -> ->. simpl. split; [done|].
  intros Hcalls. by apply app_singleton_neq in Hcalls.
Qed.

(** X2. A run that does not call the engine makes one [click.echo] call of
    its own, or none when an exception ends it.  A generation that
    succeeds prints its success message on standard output and leaves the
    error stream alone; a run stopped by one of the tool's checks prints
    that message (of one or several lines) on the error stream, leaves
    standard output alone and exits with 1; a run ended by an exception
    has printed nothing itself. *)
Theorem one_message_before_engine (e : env) (a : args) st r st' :
  cli e a st = (r, st') -> engine_calls st' = engine_calls st ->
  (r = Val tt /\ generate a = true
   /\ exists msg, stdout st' = stdout st ++ [msg] /\ stderr st' = stderr st)
  \/ (r = Exit 1
      /\ exists f, stderr st' = stderr st ++ [message f]
                   /\ stdout st' = stdout st)
  \/ (exists x, r = Raise x /\ stdout st' = stdout st
                /\ stderr st' = stderr st).
Proof.
  intros Hcli Hcalls. destruct (generate a) eqn:Hg.
  - rewrite cli_generate in Hcli by done. destruct r as [[]|c|x].
    + left. apply generate_config_val in Hcli
        as (h & p & st1 & _ & _ & _ & _ & ->).
      split; [done|]. split; [done|]. by eexists.
    + pose proof (generate_config_outcome e a st Hg) as Ho.
      rewrite Hcli in Ho. inversion Ho; subst; try congruence.
      right; left. split; [done|]. by eexists.
    + pose proof (generate_config_outcome e a st Hg) as Ho.
      rewrite Hcli in Ho. inversion Ho; subst; try congruence.
      right; right. by exists x.
  - rewrite cli_run in Hcli by done.
    apply run_tests_inv in Hcli
      as [(f & -> & ->)|[(x & -> & ->)|(p & c & _ & _ & _ & _ & Hran)]].
    + right; left. split; [done|]. by eexists.
    + right; right. by exists x.
    + unfold ran in Hran. injection Hran as -> ->. simpl in Hcalls.
      by apply app_singleton_neq in Hcalls.
Qed.

(** X3. The locator only reads.  Whatever it answers, the file system,
    standard output and the engine calls are unchanged; a path it returns
    exists, and is [common.yaml] in the explicit directory when one is
    given and in one of the two default locations otherwise. *)
Theorem locator_reads_only (e : env) (config_dir : option string) st r st' :
  locate e config_dir st = (r, st') ->
  fs st' = fs st /\ stdout st' = stdout st
  /\ engine_calls st' = engine_calls st
  /\ forall p, r = Val p ->
       st' = st /\ is_Some (fs st !! p)
       /\ (truthy config_dir = true -> Some p
             = (fun d => joinpath d "common.yaml") <$> config_dir)
       /\ (truthy config_dir = false -> p ∈ get_config_locations e).
Proof.
  intros Hloc. pose proof (gate_locate e config_dir st) as Hg.
  rewrite Hloc in Hg.
  inversion Hg as [p Hp|f Hf|x Hx]; subst; (split; [done|]);
    (split; [done|]); (split; [done|]); try by intros p [=].
  intros q [= <-]. split; [done|].
  split; [by apply locate_val in Hloc as [_ ?]|]. split; intros Ht.
  - destruct config_dir as [[|c d]|]; try done.
    rewrite locate_explicit in Hloc by done.
    case_bool_decide; [|done]. by injection Hloc as <-.
  - rewrite locate_search in Hloc by done.
    destruct (first_existing _ _) eqn:Hf; [|done].
    injection Hloc as <-. by apply first_existing_Some in Hf as [? _].
Qed.

(** X4. For a configuration that is a mapping with a mapping under
    [variables], the credential check looks at the presence of the two
    keys and at nothing else: whatever values they hold, it passes exactly
    when the test type is public or both keys are there. *)
Theorem credential_check_by_keys (d vars : gmap string pyval)
    (t : TestType) st :
  d !! "variables" = Some (PDict vars) ->
  check_auth_config (PDict d) t st = (Val tt, st)
  <-> (auth_or_all t = true ->
       is_Some (vars !! "username") /\ is_Some (vars !! "password")).
Proof.
  intros Hv. rewrite check_auth_config_eq.
  unfold has_auth_config. simpl. rewrite Hv. simpl.
  destruct (decide (is_Some (vars !! "username"))) as [Hu|Hu];
    destruct (decide (is_Some (vars !! "password"))) as [Hp|Hp];
    rewrite ?(bool_decide_eq_true_2 _ Hu), ?(bool_decide_eq_false_2 _ Hu),
      ?(bool_decide_eq_true_2 _ Hp), ?(bool_decide_eq_false_2 _ Hp);
    destruct t; simpl; split; try done; intros Hk;
    destruct (Hk eq_refl); done.
Qed.

(** ** More on the generator *)

Lemma get_config_path_fs (e : env) (config_dir : option string) st p st1 :
  get_config_path e config_dir st = (Val p, st1) ->
  (forall q, (forall d, config_dir = Some d -> q <> d) ->
     fs st1 !! q = fs st !! q)
  /\ (forall d, config_dir = Some d -> d <> EmptyString ->
       fs st1 !! d = Some Dir).
Proof.
  unfold get_config_path, bind, mkdir_parents, ret, set_fs.
  destruct config_dir as [[|c d]|]; simpl.
  - intros [= <- <-]. split; [done|]. by intros d [= <-].
  - destruct (fs st !! String c d) as [[|text]|] eqn:Hd; intros [= <- <-].
    + split; [done|]. by intros d' [= <-].
    + simpl. split.
      * intros q Hq. rewrite lookup_insert_ne; [done|].
        intros Heq. by apply (Hq (String c d)).
      * intros d' [= <-] _. by rewrite lookup_insert_eq.
  - intros [= <- <-]. split; done.
Qed.

Lemma generate_config_fs (e : env) (a : args) st u st' :
  generate_config e a st = (Val u, st') ->
  (forall q, q <> config_target e (config_dir a) ->
     (forall d, config_dir a = Some d -> q <> d) ->
     fs st' !! q = fs st !! q)
  /\ (forall d, config_dir a = Some d -> d <> EmptyString ->
       fs st' !! d = Some Dir).
Proof.
  intros Hgen.
  apply generate_config_val in Hgen as (h & p & st1 & _ & _ & Hp & _ & ->).
  apply get_config_path_val in Hp as Hpath. destruct Hpath as (-> & _).
  apply get_config_path_fs in Hp as [Hother Hdir].
  unfold generated. simpl. split.
  - intros q Hq Hd. rewrite lookup_insert_ne by done. by apply Hother.
  - intros d Hd Hne. rewrite lookup_insert_ne; [by apply Hdir|].
    rewrite Hd. destruct d as [|c d]; [done|]. apply joinpath_neq.
Qed.

(** X6. How a generation with a host fails on the file system.  When
    [--config-dir] names an existing file, creating the directory raises
    [FileExistsError] and nothing has been changed or printed.  When the
    target path is itself a directory, opening it for writing raises
    [IsADirectoryError]; no message has been printed, so no success is
    announced. *)
Theorem generation_failures (e : env) (a : args) st h :
  generate a = true -> host a = Some h -> h <> EmptyString ->
  (forall d text,
     config_dir a = Some d -> d <> EmptyString ->
     fs st !! d = Some (File text) ->
     cli e a st = (Raise FileExistsError, st))
  /\ ((forall d text, config_dir a = Some d -> fs st !! d <> Some (File text)) ->
      fs st !! config_target e (config_dir a) = Some Dir ->
      fst (cli e a st) = Raise IsADirectoryError
      /\ stdout (snd (cli e a st)) = stdout st
      /\ stderr (snd (cli e a st)) = stderr st).
Proof.
  intros Hg Hh Hne. rewrite cli_generate by done.
  unfold generate_config. rewrite Hh. destruct h as [|c0 h]; [done|].
  split.
  - intros d text Hd Hdne Hf. rewrite Hd. destruct d as [|c d]; [done|].
    unfold bind, get_config_path, bind, mkdir_parents. by rewrite Hf.
  - intros Hnf Ht. destruct (config_dir a) as [[|c d]|] eqn:Hd; simpl in Ht.
    + unfold bind, get_config_path, ret, save_yaml. by rewrite Ht.
    + unfold bind, get_config_path, bind, mkdir_parents, ret, save_yaml, set_fs.
      destruct (fs st !! String c d) as [[|text]|] eqn:Hf; simpl.
      * by rewrite Ht.
      * by destruct (Hnf (String c d) text).
      * rewrite lookup_insert_ne by (intros Heq; by apply (joinpath_neq _ _ (eq_sym Heq))).
        by rewrite Ht.
    + unfold bind, get_config_path, ret, save_yaml. by rewrite Ht.
Qed.

(** X7. Generating again over a generated configuration, with the same
    [--config-dir] setting, never fails and asks nothing: the file then
    holds the second configuration and nothing else has changed. *)
Theorem regeneration_overwrites (e : env) (a b : args) st st1 h :
  cli e a st = (Val tt, st1) -> generate a = true ->
  generate b = true -> config_dir b = config_dir a ->
  host b = Some h -> h <> EmptyString ->
  let target := config_target e (config_dir a) in
  let config :=
    build_config h (testid b) (solution b) (username b) (password b) in
  exists st2,
    cli e b st1 = (Val tt, st2)
    /\ fs st2 = <[target := File (yaml_dump config)]> (fs st1)
    /\ stdout st2
       = stdout st1 ++ ["Generated configuration file at: " +:+ target]
    /\ stderr st2 = stderr st1.
Proof.
  intros Hcli Hga Hgb Hcd Hh Hne target config.
  rewrite cli_generate in Hcli by done.
  pose proof (generate_config_fs e a st tt st1 Hcli) as [_ Hdir].
  apply generate_config_val in Hcli as (h0 & p & st0 & _ & _ & Hp & _ & Hst).
  apply get_config_path_val in Hp as (-> & _). fold target in Hst.
  assert (Ht : fs st1 !! target = Some (File (yaml_dump
            (build_config h0 (testid a) (solution a) (username a)
               (password a)))))
    by (rewrite Hst; unfold generated; simpl; by rewrite lookup_insert_eq).
  assert (Hpath : get_config_path e (config_dir b) st1 = (Val target, st1)).
  { rewrite Hcd. unfold target, get_config_path, config_target.
    destruct (config_dir a) as [[|c d]|] eqn:Hd; try done.
    unfold bind, mkdir_parents. by rewrite (Hdir (String c d)). }
  eexists. rewrite cli_generate by done.
  rewrite (generate_config_ok e b st1 h target st1) by (try done; by rewrite Ht).
  by repeat split.
Qed.

(** ** Generating, then running *)

Lemma has_auth_config_build (h : string) (testid solution : Z)
    (username password : option string) :
  has_auth_config (build_config h testid solution username password)
  = inr (truthy username && truthy password).
Proof. by destruct username as [[|c u]|], password as [[|c' pw]|]. Qed.

(** X8. On a configuration as the generator builds it, the credential
    check stops test types auth and all exactly when the generation was
    not given both a non-empty username and a non-empty password; public
    always passes. *)
Theorem generated_config_gate (h : string) (testid solution : Z)
    (username password : option string) (t : TestType) st :
  check_auth_config (build_config h testid solution username password) t st
  = if auth_or_all t && negb (truthy username && truthy password)
    then (Exit 1, failed (AuthConfigMissing t) st)
    else (Val tt, st).
Proof. by rewrite check_auth_config_eq, has_auth_config_build. Qed.

(** X9. After a generation without complete credentials, a test run with
    the same [--config-dir] setting and test type auth or all (all is the
    default) finds the new file, loads it, and stops with the
    missing-auth-configuration error: exit code 1, engine not called.
    PyYAML is taken to load back what it dumped. *)
Theorem plain_generation_blocks_auth (e : env) (a b : args) st st1 h :
  cli e a st = (Val tt, st1) -> generate a = true -> host a = Some h ->
  truthy (username a) && truthy (password a) = false ->
  let config :=
    build_config h (testid a) (solution a) (username a) (password a) in
  yaml_safe_load (yaml_dump config) = inr config ->
  generate b = false -> config_dir b = config_dir a ->
  auth_or_all (test_type b) = true ->
  cli e b st1 = (Exit 1, failed (AuthConfigMissing (test_type b)) st1).
Proof.
  intros Hcli Hga Hh Hcred config Hyaml Hgb Hcd Ht.
  rewrite cli_generate in Hcli by done.
  apply generate_config_val in Hcli as (h0 & p & st0 & Hh0 & _ & Hp & _ & Hst).
  rewrite Hh in Hh0. injection Hh0 as <-. fold config in Hst.
  apply get_config_path_val in Hp as (-> & _).
  assert (Hf : fs st1 !! config_target e (config_dir a)
               = Some (File (yaml_dump config)))
    by (rewrite Hst; unfold generated; simpl; by rewrite lookup_insert_eq).
  rewrite cli_run by done. unfold run_tests. rewrite Hcd.
  rewrite (bind_val _ _ _ _ _ (locate_target e _ st1 ltac:(by rewrite Hf))).
  unfold bind at 1. rewrite (load_config_file _ _ _ Hf). unfold lift.
  rewrite Hyaml. unfold bind.
  unfold config. by rewrite check_auth_config_eq, has_auth_config_build, Ht, Hcred.
Qed.

(** ** More on the test files *)

Lemma scan_marks_readable (test_files : list string) flags st :
  (forall p, p ∈ test_files -> exists text, fs st !! p = Some (File text)) ->
  exists ha hp, scan_marks test_files flags st = (Val (ha, hp), st).
Proof.
  revert flags. induction test_files as [|q rest IH]; intros [ha hp] Hr.
  - by exists ha, hp.
  - destruct (Hr q) as [text Hq]; [by left|].
    simpl. unfold bind, read_text. rewrite Hq.
    apply IH. intros p Hp. apply Hr. by right.
Qed.

Lemma scan_marks_val_readable (test_files : list string) flags st fl st' :
  scan_marks test_files flags st = (Val fl, st') ->
  forall p, p ∈ test_files -> exists text, fs st !! p = Some (File text).
Proof.
  revert flags. induction test_files as [|q rest IH]; intros flags Hs p Hp.
  - by apply elem_of_nil in Hp.
  - simpl in Hs. unfold bind, read_text in Hs.
    destruct (fs st !! q) as [[|text]|] eqn:Hq; try done.
    apply elem_of_cons in Hp as [->|Hp]; [by exists text|].
    by apply (IH _ Hs).
Qed.

(** X11. The scan reads every discovered entry.  It yields flags exactly
    when each entry is a readable file; one entry that is a directory (a
    directory named like a test file) or has vanished makes the whole run
    end by an exception.  The scan itself never exits and never changes
    the state. *)
Theorem scan_reads_every_file (test_files : list string) flags st :
  ((exists fl, scan_marks test_files flags st = (Val fl, st))
   <-> forall p, p ∈ test_files ->
         exists text, fs st !! p = Some (File text))
  /\ (forall r st', scan_marks test_files flags st = (r, st') ->
       st' = st /\ forall c, r <> Exit c)
  /\ (forall p, p ∈ test_files -> fs st !! p = Some Dir ->
       exists x, scan_marks test_files flags st = (Raise x, st)).
Proof.
  assert (Hnoexit : forall r st', scan_marks test_files flags st = (r, st') ->
            st' = st /\ forall c, r <> Exit c).
  { revert flags. induction test_files as [|q rest IH]; intros flags r st'.
    - by intros [= <- <-].
    - simpl. unfold bind, read_text.
      destruct (fs st !! q) as [[|text]|]; try by intros [= <- <-].
      apply IH. }
  split; [|split; [done|]].
  - split.
    + intros [fl Hs]. by eapply scan_marks_val_readable.
    + intros Hr. destruct (scan_marks_readable _ flags st Hr) as (ha & hp & Hs).
      by exists (ha, hp).
  - intros p Hp Hd.
    destruct (scan_marks test_files flags st) as [[fl|c|x] st'] eqn:Hs.
    + destruct (scan_marks_val_readable _ _ _ _ _ Hs p Hp) as [text Ht].
      congruence.
    + destruct (Hnoexit _ _ eq_refl) as [_ Hc]. by destruct (Hc c).
    + destruct (Hnoexit _ _ eq_refl) as [-> _]. by exists x.
Qed.

(** X12. The flags do not depend on the order in which the files are
    listed: scanning readable files in any other order gives the same
    result. *)
Theorem scan_order_irrelevant (files files' : list string) st :
  files ≡ₚ files' ->
  (forall p, p ∈ files -> exists text, fs st !! p = Some (File text)) ->
  scan_marks files (false, false) st = scan_marks files' (false, false) st.
Proof.
  intros Hperm Hr.
  assert (Hr' : forall p, p ∈ files' ->
            exists text, fs st !! p = Some (File text))
    by (intros p Hp; apply Hr; by rewrite Hperm).
  destruct (scan_marks_readable _ (false, false) st Hr) as (ha & hp & Hs).
  destruct (scan_marks_readable _ (false, false) st Hr') as (ha' & hp' & Hs').
  rewrite Hs, Hs'.
  apply scan_marks_val in Hs as [Ha Hp]. apply scan_marks_val in Hs' as [Ha' Hp'].
  assert (ha = ha') as ->.
  { apply eq_true_iff_eq. rewrite Ha, Ha'.
    by setoid_rewrite Hperm. }
  assert (hp = hp') as ->.
  { apply eq_true_iff_eq. rewrite Hp, Hp'.
    by setoid_rewrite Hperm. }
  done.
Qed.

(** X13. With the test directory there and every discovered file readable,
    the marks alone decide the gate: auth needs a file with the auth
    mark, public one with the public mark, all both, and the error names
    what is missing.  So with public marks only, auth fails, all fails
    naming auth, and public passes. *)
Theorem marks_gate_decided (test_dir : string) (t : TestType) st
    (ha hp : bool) :
  is_Some (fs st !! test_dir) ->
  (forall p, p ∈ glob_tests (fs st) test_dir ->
     exists text, fs st !! p = Some (File text)) ->
  (ha = true <->
     exists p, p ∈ glob_tests (fs st) test_dir
               /\ carries (fs st) auth_marker p) ->
  (hp = true <->
     exists p, p ∈ glob_tests (fs st) test_dir
               /\ carries (fs st) public_marker p) ->
  check_tests test_dir t st =
  match t with
  | AUTH =>
      if ha then (Val tt, st) else (Exit 1, failed (NoAuthTests AUTH) st)
  | PUBLIC =>
      if hp then (Val tt, st) else (Exit 1, failed (NoPublicTests PUBLIC) st)
  | ALL =>
      if ha && hp then (Val tt, st)
      else (Exit 1, failed (MissingTypes ALL (missing_types ha hp)) st)
  end.
Proof.
  intros Hd Hr Ha Hp. rewrite check_tests_eq by done.
  destruct (scan_marks_readable _ (false, false) st Hr) as (ha' & hp' & Hs).
  rewrite (bind_val _ _ _ _ _ Hs). simpl.
  apply scan_marks_val in Hs as [Ha' Hp']. simpl in Ha', Hp'.
  assert (ha' = ha) as ->.
  { apply eq_true_iff_eq. rewrite Ha, Ha'. split; [|by right].
    by intros [?|?]. }
  assert (hp' = hp) as ->.
  { apply eq_true_iff_eq. rewrite Hp, Hp'. split; [|by right].
    by intros [?|?]. }
  by destruct t, ha, hp.
Qed.


(** ** The way to the engine *)

Lemma has_auth_config_mapping (d vars : gmap string pyval) :
  d !! "variables" = Some (PDict vars) ->
  has_auth_config (PDict d)
  = inr (bool_decide (is_Some (vars !! "username"))
         && bool_decide (is_Some (vars !! "password"))).
Proof.
  intros Hv. unfold has_auth_config. simpl. rewrite Hv. simpl.
  by destruct (bool_decide (is_Some (vars !! "username"))).
Qed.

(** X16. The gates are all there is between a test run and the engine.
    When the located configuration file loads to a mapping with a mapping
    under [variables] that has both credential keys (needed for auth and
    all only), the test directory exists, every discovered file is
    readable and the marks the test type asks for are carried by some
    file, the engine is called once, with the test directory, the four
    presentation flags, the located configuration and, unless the type is
    all, the marker filter; its results are printed and its code is the
    exit code. *)
Theorem gates_sufficient (e : env) (a : args) st config_path text
    (d vars : gmap string pyval) :
  generate a = false ->
  locate e (config_dir a) st = (Val config_path, st) ->
  fs st !! config_path = Some (File text) ->
  yaml_safe_load text = inr (PDict d) ->
  d !! "variables" = Some (PDict vars) ->
  (auth_or_all (test_type a) = true ->
     is_Some (vars !! "username") /\ is_Some (vars !! "password")) ->
  is_Some (fs st !! test_dir_of e) ->
  (forall p, p ∈ glob_tests (fs st) (test_dir_of e) ->
     exists content, fs st !! p = Some (File content)) ->
  (auth_or_all (test_type a) = true ->
     exists p, p ∈ glob_tests (fs st) (test_dir_of e)
               /\ carries (fs st) auth_marker p) ->
  (public_or_all (test_type a) = true ->
     exists p, p ∈ glob_tests (fs st) (test_dir_of e)
               /\ carries (fs st) public_marker p) ->
  let argv :=
    [test_dir_of e; "-q"; "--tb=no"; "--no-header"; "--no-summary";
     "--tavern-global-cfg=" +:+ config_path]
    ++ match test_type a with
       | ALL => []
       | AUTH => ["-m"; "auth"]
       | PUBLIC => ["-m"; "public"]
       end in
  cli e a st
  = (Exit (fst (pytest_main argv (fs st))),
     mkState (fs st)
       (stdout st ++ [format_results (snd (pytest_main argv (fs st)))])
       (stderr st) (engine_calls st ++ [argv])).
Proof.
  intros Hg Hloc Hf Hy Hv Hkeys Hdir Hr Hauth Hpublic argv.
  rewrite cli_run by done. unfold run_tests.
  rewrite (bind_val _ _ _ _ _ Hloc). unfold bind at 1.
  rewrite (load_config_file _ _ _ Hf). unfold lift. rewrite Hy.
  assert (Hcheck : check_auth_config (PDict d) (test_type a) st = (Val tt, st)).
  { rewrite check_auth_config_eq, (has_auth_config_mapping _ _ Hv).
    destruct (auth_or_all (test_type a)) eqn:Ht; [|done].
    destruct (Hkeys eq_refl) as [Hu Hp].
    by rewrite !bool_decide_eq_true_2. }
  rewrite (bind_val _ _ _ _ _ Hcheck). fold (test_dir_of e).
  assert (Htests : check_tests (test_dir_of e) (test_type a) st = (Val tt, st)).
  { rewrite check_tests_eq by done.
    destruct (scan_marks_readable _ (false, false) st Hr) as (ha & hp & Hs).
    rewrite (bind_val _ _ _ _ _ Hs). simpl.
    apply scan_marks_val in Hs as [Ha Hp].
    assert (auth_or_all (test_type a) = true -> ha = true) as Hha
      by (intros Ht; apply Ha; right; by apply Hauth).
    assert (public_or_all (test_type a) = true -> hp = true) as Hhp
      by (intros Ht; apply Hp; right; by apply Hpublic).
    destruct (test_type a); simpl in *;
      rewrite ?Hha, ?Hhp by done; done. }
  rewrite (bind_val _ _ _ _ _ Htests).
  assert (pytest_args (test_dir_of e) config_path (test_type a) = argv) as Hargv
    by (unfold pytest_args, argv; by destruct (test_type a)).
  unfold bind, run_engine, echo, exit. simpl. by rewrite Hargv.
Qed.

End Further.

(** * The theorems at work *)

Section Examples.
Import Scenario.
#[local] Existing Instance ext.

(** The run with credentials and both marks reaches the engine, so a
    discovered file carries the auth mark. *)
Lemma engine_gated_witness :
  exists p,
    p ∈ glob_tests (fs (installed text_auth)) "/pkg/tests"
    /\ carries (fs (installed text_auth)) auth_marker p.
Proof.
  destruct (engine_gated here (run ALL) (installed text_auth)
              (fst (cli here (run ALL) (installed text_auth)))
              (snd (cli here (run ALL) (installed text_auth))))
    as [Hgate _].
  - vm_compute. reflexivity.
  - reflexivity.
  - destruct Hgate as (p & text & config & _ & _ & _ & Hauth & _).
    + vm_compute. discriminate.
    + destruct (Hauth eq_refl) as [_ Hmark]. exact Hmark.
Defined.

(** C1 as stated fails.  With [variables: [username, password]] in the
    configuration file the mapping under [variables] has no keys at all,
    being a list; line 157 finds both strings in the list, and the run
    for test type auth calls the engine. *)
Lemma list_variables_pass_gate :
  load_config "/work/common.yaml" (installed text_list)
  = (Val config_list, installed text_list)
  /\ ~ has_key config_list "username"
  /\ ~ has_key config_list "password"
  /\ has_auth_config config_list = inr true
  /\ engine_calls (snd (cli here (run AUTH) (installed text_list)))
     = [pytest_args "/pkg/tests" "/work/common.yaml" AUTH].
Proof.
  split; [by vm_compute|].
  split; [|split; [|split; by vm_compute]].
  - intros (d & vars & Hc & Hv & _). injection Hc as <-.
    vm_compute in Hv. discriminate.
  - intros (d & vars & Hc & Hv & _). injection Hc as <-.
    vm_compute in Hv. discriminate.
Qed.



(** A generated configuration without credentials stops auth and lets
    public through. *)
Lemma credentials_gate_witness :
  check_auth_config config_generated AUTH fresh
  = (Exit 1, failed (AuthConfigMissing AUTH) fresh)
  /\ check_auth_config config_generated PUBLIC fresh = (Val tt, fresh).
Proof.
  destruct (credentials_gate
              {[ "variables" :=
                   PDict (<["solution_id" := PInt 2]>
                            (<["user_id" := PInt 5]>
                               {[ "host" := PStr "http://localhost:8000" ]})) ]}
              fresh) as (Hauth & Hpublic & _).
  - right. eexists. split; [reflexivity|]. left. reflexivity.
  - split; [exact (Hauth AUTH eq_refl) | exact Hpublic].
Defined.

(** C3 as stated fails.  A configuration file holding [variables:] and
    nothing under it loads with [None] for [variables]: it has neither
    key, yet line 157 raises [TypeError] before the test type is looked
    at, for public as for auth. *)
Lemma null_variables_block_public :
  yaml_safe_load text_null = inr config_null
  /\ ~ has_key config_null "username"
  /\ check_auth_config config_null PUBLIC fresh = (Raise TypeError, fresh)
  /\ check_auth_config config_null AUTH fresh = (Raise TypeError, fresh)
  /\ fst (cli here (run PUBLIC) (installed text_null)) = Raise TypeError.
Proof.
  split; [by vm_compute|]. split; [|by vm_compute].
  intros (d & vars & Hc & Hv & _). injection Hc as <-.
  vm_compute in Hv. discriminate.
Qed.

(** Generating in the current directory, then locating without a
    directory: the same path, and the host read back. *)
Lemma generate_locate_roundtrip_witness :
  let a := gen (Some "http://localhost:8000") None None in
  let st' := snd (cli here a fresh) in
  locate here (config_dir a) st' = (Val "/work/common.yaml", st')
  /\ load_config "/work/common.yaml" st' = (Val config_generated, st').
Proof.
  intros a st'.
  destruct (generate_locate_roundtrip here a fresh st' "http://localhost:8000")
    as (config_path & st1 & Hpath & _ & Hlocate & Hload & _).
  - reflexivity.
  - reflexivity.
  - discriminate.
  - by vm_compute.
  - by vm_compute.
  - injection Hpath as <- _.
    split; [exact Hlocate | exact Hload].
Defined.

(** [--generate] alone: exit 1, and the file system is untouched. *)
Lemma generate_without_host_witness :
  exists st',
    cli here (gen None (Some "tester") (Some "secret")) fresh = (Exit 1, st')
    /\ fs st' = fs fresh.
Proof.
  destruct (generate_without_host here
              (gen None (Some "tester") (Some "secret")) fresh)
    as (st' & Hcli & Hfs & _).
  - reflexivity.
  - reflexivity.
  - exists st'. split; [exact Hcli | exact Hfs].
Defined.

(** Both test files of the installation are read and both marks found. *)
Lemma marks_by_text_witness :
  exists p text pre post,
    p ∈ [test_auth; test_public]
    /\ fs fresh !! p = Some (File text)
    /\ text = pre +:+ auth_marker +:+ post.
Proof.
  destruct (marks_by_text [test_auth; test_public] fresh true true fresh)
    as (Hauth & _).
  - by vm_compute.
  - apply Hauth. reflexivity.
Defined.

(** No [--config-dir], nothing in the current directory, a file in the
    user configuration directory: that one is returned. *)
Lemma locate_order_witness :
  locate here None user_only
  = (Val "/home/u/.config/nbsinfra_verify/common.yaml", user_only).
Proof.
  destruct (locate_order here user_only) as [_ Hsearch].
  destruct (Hsearch None eq_refl) as (_ & Huser & _).
  apply Huser.
  - by vm_compute.
  - unfold is_Some. eexists. vm_compute. reflexivity.
Defined.

(** The example of the specification, run in the current directory. *)
Lemma generate_example_witness :
  fs (snd (cli here (gen (Some "http://localhost:8000") None None) fresh))
  !! "/work/common.yaml"
  = Some (File (yaml_dump (PDict {[ "variables" := PDict
       {[ "host" := PStr "http://localhost:8000";
          "user_id" := PInt 5; "solution_id" := PInt 2 ]} ]}))).
Proof.
  destruct (generate_example here
              (gen (Some "http://localhost:8000") None None) fresh
              (snd (cli here (gen (Some "http://localhost:8000") None None)
                      fresh)))
    as (Hfile & _); [reflexivity .. | exact Hfile].
Defined.

(** The engine's code, 5 here, is the exit code of the run. *)
Lemma exit_code_forwarded_witness :
  fst (cli here (run ALL) (installed text_auth)) = Exit 5.
Proof.
  destruct (exit_code_forwarded here (run ALL) (installed text_auth)
              (fst (cli here (run ALL) (installed text_auth)))
              (snd (cli here (run ALL) (installed text_auth))))
    as (config_path & _ & Hexit).
  - vm_compute. reflexivity.
  - vm_compute. discriminate.
  - exact Hexit.
Defined.

(** A username without a password: the file is written, neither key is in
    it, and nothing goes to the error stream. *)
Lemma incomplete_credentials_omitted_witness :
  exists vars st',
    cli here (gen (Some "http://localhost:8000") (Some "tester") None) fresh
    = (Val tt, st')
    /\ fs st' !! "/work/common.yaml"
       = Some (File (yaml_dump (PDict {[ "variables" := PDict vars ]})))
    /\ vars !! "username" = None /\ vars !! "password" = None
    /\ stderr st' = [].
Proof.
  destruct (incomplete_credentials_omitted here
              (gen (Some "http://localhost:8000") (Some "tester") None) fresh
              "http://localhost:8000" "/work/common.yaml" fresh)
    as (vars & st' & Hcli & Hfile & Hu & Hp & _ & _ & Herr & _).
  - reflexivity.
  - reflexivity.
  - discriminate.
  - reflexivity.
  - reflexivity.
  - by vm_compute.
  - exists vars, st'. repeat split; try assumption.
Defined.

End Examples.

(** * The further properties at work *)

Section FurtherExamples.
Import Scenario.
#[local] Existing Instance ext.

Lemma test_run_keeps_files_witness :
  fs (snd (cli here (run ALL) fresh)) = fs fresh.
Proof.
  destruct (test_run_keeps_files here (run ALL) fresh
              (fst (cli here (run ALL) fresh))
              (snd (cli here (run ALL) fresh))) as [Hfs _].
  - vm_compute. reflexivity.
  - reflexivity.
  - exact Hfs.
Defined.

Lemma one_message_before_engine_witness :
  let r := fst (cli here (run ALL) fresh) in
  let st' := snd (cli here (run ALL) fresh) in
  (r = Val tt /\ generate (run ALL) = true
   /\ exists msg, stdout st' = [] ++ [msg] /\ stderr st' = [])
  \/ (r = Exit 1
      /\ exists f, stderr st' = [] ++ [message f] /\ stdout st' = [])
  \/ (exists x, r = Raise x /\ stdout st' = [] /\ stderr st' = []).
Proof.
  intros r st'.
  apply (one_message_before_engine here (run ALL) fresh r st').
  - vm_compute. reflexivity.
  - vm_compute. reflexivity.
Defined.

Lemma locator_reads_only_witness :
  fs (snd (locate here None user_only)) = fs user_only.
Proof.
  destruct (locator_reads_only here None user_only
              (fst (locate here None user_only))
              (snd (locate here None user_only))) as [Hfs _].
  - vm_compute. reflexivity.
  - exact Hfs.
Defined.

(** Keys with a null and an empty value pass the credential check. *)
Lemma credential_check_by_keys_witness :
  check_auth_config
    (PDict {[ "variables" :=
                PDict {[ "username" := PNone; "password" := PStr EmptyString ]} ]})
    AUTH fresh
  = (Val tt, fresh).
Proof.
  apply (credential_check_by_keys
           {[ "variables" :=
                PDict {[ "username" := PNone; "password" := PStr EmptyString ]} ]}
           {[ "username" := PNone; "password" := PStr EmptyString ]}).
  - reflexivity.
  - intros _. split; eexists; vm_compute; reflexivity.
Defined.

(** [--config-dir] names a plain file: nothing is written. *)
Lemma generation_failures_witness :
  cli here (gen_in "/opt/cfg") config_dir_is_file
  = (Raise FileExistsError, config_dir_is_file).
Proof.
  destruct (generation_failures here (gen_in "/opt/cfg") config_dir_is_file
              "http://localhost:8000") as [Hfile _].
  - reflexivity.
  - reflexivity.
  - discriminate.
  - apply (Hfile "/opt/cfg" "notes").
    + reflexivity.
    + discriminate.
    + vm_compute. reflexivity.
Defined.

Lemma regeneration_overwrites_witness :
  let st1 :=
    snd (cli here (gen (Some "http://localhost:8000") None None) fresh) in
  exists st2,
    cli here (gen (Some "http://example.org") (Some "tester") (Some "secret"))
      st1
    = (Val tt, st2)
    /\ fs st2 !! "/work/common.yaml"
       = Some (File (yaml_dump
           (build_config "http://example.org" 5 2
              (Some "tester") (Some "secret")))).
Proof.
  intros st1.
  destruct (regeneration_overwrites here
              (gen (Some "http://localhost:8000") None None)
              (gen (Some "http://example.org") (Some "tester") (Some "secret"))
              fresh st1 "http://example.org")
    as (st2 & Hcli & Hfs & _).
  - vm_compute. reflexivity.
  - reflexivity.
  - reflexivity.
  - reflexivity.
  - reflexivity.
  - discriminate.
  - exists st2. split; [exact Hcli|]. rewrite Hfs. vm_compute. reflexivity.
Defined.

Lemma plain_generation_blocks_auth_witness :
  let st1 :=
    snd (cli here (gen (Some "http://localhost:8000") None None) fresh) in
  cli here (run ALL) st1 = (Exit 1, failed (AuthConfigMissing ALL) st1).
Proof.
  intros st1.
  apply (plain_generation_blocks_auth here
           (gen (Some "http://localhost:8000") None None) (run ALL)
           fresh st1 "http://localhost:8000").
  - vm_compute. reflexivity.
  - reflexivity.
  - reflexivity.
  - reflexivity.
  - vm_compute. reflexivity.
  - reflexivity.
  - reflexivity.
  - reflexivity.
Defined.

(** A directory named like a test file aborts the scan. *)
Lemma scan_reads_every_file_witness :
  exists x,
    scan_marks [test_auth; broken_entry; test_public] (false, false)
      with_directory_entry
    = (Raise x, with_directory_entry).
Proof.
  destruct (scan_reads_every_file [test_auth; broken_entry; test_public]
              (false, false) with_directory_entry) as (_ & _ & Hdir).
  apply (Hdir broken_entry).
  - right. left.
  - vm_compute. reflexivity.
Defined.

Lemma scan_order_irrelevant_witness :
  scan_marks [test_auth; test_public] (false, false) fresh
  = scan_marks [test_public; test_auth] (false, false) fresh.
Proof.
  apply scan_order_irrelevant.
  - apply perm_swap.
  - intros p Hp.
    apply elem_of_cons in Hp as [->|Hp];
      [|apply elem_of_cons in Hp as [->|Hp]; [|by apply elem_of_nil in Hp]];
      eexists; vm_compute; reflexivity.
Defined.

(** Public marks only, test type all: the error names auth. *)
Lemma marks_gate_decided_witness :
  check_tests "/pkg/tests" ALL public_only
  = (Exit 1, failed (MissingTypes ALL ["auth"]) public_only).
Proof.
  apply (marks_gate_decided "/pkg/tests" ALL public_only false true).
  - eexists. vm_compute. reflexivity.
  - intros p Hp. vm_compute in Hp.
    apply elem_of_cons in Hp as [->|Hp]; [|by apply elem_of_nil in Hp].
    eexists. vm_compute. reflexivity.
  - split; [discriminate|].
    intros (p & Hp & text & Hf & Hc). vm_compute in Hp.
    apply elem_of_cons in Hp as [->|Hp]; [|by apply elem_of_nil in Hp].
    vm_compute in Hf. injection Hf as <-. vm_compute in Hc. discriminate.
  - split; [|reflexivity]. intros _. exists test_public. split.
    + vm_compute. left.
    + eexists. split; vm_compute; reflexivity.
Defined.


Lemma gates_sufficient_witness :
  fst (cli here (run AUTH) (installed text_auth)) = Exit 5
  /\ engine_calls (snd (cli here (run AUTH) (installed text_auth)))
     = [["/pkg/tests"; "-q"; "--tb=no"; "--no-header"; "--no-summary";
         "--tavern-global-cfg=/work/common.yaml"; "-m"; "auth"]].
Proof.
  rewrite (gates_sufficient here (run AUTH) (installed text_auth)
             "/work/common.yaml" text_auth
             {[ "variables" :=
                  PDict (<["password" := PStr "secret"]>
                    (<["username" := PStr "tester"]>
                      (<["solution_id" := PInt 2]>
                        (<["user_id" := PInt 5]>
                          {[ "host" := PStr "http://localhost:8000" ]})))) ]}
             (<["password" := PStr "secret"]>
                (<["username" := PStr "tester"]>
                  (<["solution_id" := PInt 2]>
                    (<["user_id" := PInt 5]>
                      {[ "host" := PStr "http://localhost:8000" ]}))))).
  - split; reflexivity.
  - reflexivity.
  - vm_compute. reflexivity.
  - vm_compute. reflexivity.
  - vm_compute. reflexivity.
  - reflexivity.
  - intros _. split; eexists; vm_compute; reflexivity.
  - eexists. vm_compute. reflexivity.
  - intros p Hp. vm_compute in Hp.
    apply elem_of_cons in Hp as [->|Hp];
      [|apply elem_of_cons in Hp as [->|Hp]; [|by apply elem_of_nil in Hp]];
      eexists; vm_compute; reflexivity.
  - intros _. exists test_auth. split.
    + vm_compute. left.
    + eexists. split; vm_compute; reflexivity.
  - discriminate.
Defined.

End FurtherExamples.
